(** * MLflow autologging for PyTorch Lightning

    A shallow embedding of [mlflow/pytorch/_pytorch_autolog.py]: the callback
    class [__MLflowPLCallback], the function [_run_and_log_function] and the
    patched [fit], over an explicit store holding the tracking client, the
    module global [every_n_epoch], the trainers and the callback instances.

    Calls into the tracking client are recorded as a trace of events; whether
    such a call raises is decided by the environment, so every statement below
    holds for every behaviour of the tracking backend. *)

From Stdlib Require Import ZArith String Ascii List Bool Lia.
From stdpp Require Import base option list gmap strings.

Set Warnings "-register-all,-clear-no-such-hyp".

Local Open Scope string_scope.
Local Open Scope list_scope.
Local Open Scope Z_scope.

(** ** Python values and exceptions *)

(** The values the shim hands to the tracking client.  The shim never looks
    inside a float, a tensor or a model: a float is kept by its binary64 bit
    pattern and a framework object by its identity. *)
Inductive Value :=
| VNone
| VBool (b : bool)
| VInt (z : Z)
| VFloat (bits : Z)
| VStr (s : string)
| VTuple (vs : list Value)
| VObj (o : nat).

Inductive Exn :=
| ZeroDivisionError
| AttributeError (name : string)
| TypeError
| ValueError
| RecursionError
| MlflowException (msg : string).

(** The result of running a piece of Python: a value or a raised exception. *)
Inductive Outcome (A : Type) :=
| Returned (a : A)
| Raised (e : Exn).
Arguments Returned {A} a.
Arguments Raised {A} e.

(** ** The tracking client's interface *)

(** One constructor per client function the shim calls, with the arguments
    the source passes. *)
Inductive ApiCall :=
| set_tag (key : string) (value : Value)
| log_param (key : string) (value : Value)
| log_metric (key : string) (value : Value) (step : option Z)
| log_artifact (local_path : string) (artifact_path : option string)
| log_model (pytorch_model : Value) (artifact_path : string)
| start_run
| end_run.

(** A call that reached the client, and the exception it raised if any. *)
Record Event := mkEvent { ev_call : ApiCall; ev_error : option Exn }.

(** ** Framework objects, as far as the shim reads them *)

(** [pl.callbacks.early_stopping.EarlyStopping]; a field is [None] when the
    object has no such attribute ([hasattr] is false). *)
Record EarlyStopping := mkEarlyStopping {
  monitor : option Value;
  mode : option Value;
  patience : option Z;
  min_delta : option Value;
  stopped_epoch : option Z;
  best_score : option Value;
  wait_count : option Value
}.

(** An entry of [trainer.callbacks].  The class statement of line 50 is
    inside [_autolog], so each call of [_autolog] defines a callback class of
    its own: an instance of such a class is known by the identity of its class
    and its own identity; its attribute lives in the store. *)
Inductive Callback :=
| MLflowPLCallback (callback_class o : nat)
| EarlyStoppingCallback (es : EarlyStopping)
| OtherCallback (name : string).

Record Optimizer := mkOptimizer {
  type_name : string;
  defaults : option (gmap string Value)
}.

Record ModelCheckpoint := mkModelCheckpoint { best_model_path : string }.

Record Trainer := mkTrainer {
  max_epochs : Value;
  callbacks : list Callback;
  callback_metrics : list (string * Value);
  optimizers : option (list Optimizer);
  model : Value;
  checkpoint_callback : option ModelCheckpoint
}.

Definition with_callbacks (t : Trainer) (cbs : list Callback) : Trainer :=
  mkTrainer (max_epochs t) cbs (callback_metrics t) (optimizers t) (model t)
            (checkpoint_callback t).

Record LightningModule := mkLightningModule { current_epoch : Z; module_id : nat }.

(** ** The store *)

Record World := mkWorld {
  every_n_epoch : Z;                 (* the module global of line 15 *)
  events : list Event;               (* client calls so far, oldest first *)
  warnings : list Exn;               (* failures turned into warnings *)
  active_run : option nat;
  runs_started : nat;
  trainers : gmap nat Trainer;       (* trainer objects by identity *)
  early_stopping : gmap nat bool;    (* self.early_stopping of each callback *)
  next_obj : nat;
  tmp_made : nat;
  tempdirs : list string;
  files : gmap string string
}.

Definition set_every_n_epoch (n : Z) (w : World) : World :=
  mkWorld n (events w) (warnings w) (active_run w) (runs_started w) (trainers w)
          (early_stopping w) (next_obj w) (tmp_made w) (tempdirs w) (files w).

Definition add_event (e : Event) (w : World) : World :=
  mkWorld (every_n_epoch w) (events w ++ [e]) (warnings w) (active_run w)
          (runs_started w) (trainers w) (early_stopping w) (next_obj w)
          (tmp_made w) (tempdirs w) (files w).

Definition add_warning (e : Exn) (w : World) : World :=
  mkWorld (every_n_epoch w) (events w) (warnings w ++ [e]) (active_run w)
          (runs_started w) (trainers w) (early_stopping w) (next_obj w)
          (tmp_made w) (tempdirs w) (files w).

Definition set_run (r : option nat) (started : nat) (w : World) : World :=
  mkWorld (every_n_epoch w) (events w) (warnings w) r started (trainers w)
          (early_stopping w) (next_obj w) (tmp_made w) (tempdirs w) (files w).

Definition set_trainers (ts : gmap nat Trainer) (w : World) : World :=
  mkWorld (every_n_epoch w) (events w) (warnings w) (active_run w)
          (runs_started w) ts (early_stopping w) (next_obj w) (tmp_made w)
          (tempdirs w) (files w).

Definition set_early_stopping (fs : gmap nat bool) (nxt : nat) (w : World) : World :=
  mkWorld (every_n_epoch w) (events w) (warnings w) (active_run w)
          (runs_started w) (trainers w) fs nxt (tmp_made w) (tempdirs w)
          (files w).

Definition set_fs (made : nat) (dirs : list string) (fs : gmap string string)
    (w : World) : World :=
  mkWorld (every_n_epoch w) (events w) (warnings w) (active_run w)
          (runs_started w) (trainers w) (early_stopping w) (next_obj w) made
          dirs fs.

(** ** Computations over the store that may raise *)

Definition M (A : Type) : Type := World -> Outcome A * World.

Definition ret {A} (a : A) : M A := fun w => (Returned a, w).

Definition raise {A} (e : Exn) : M A := fun w => (Raised e, w).

Definition bind {A B} (m : M A) (k : A -> M B) : M B :=
  fun w =>
    match m w with
    | (Returned a, w') => k a w'
    | (Raised e, w') => (Raised e, w')
    end.

Notation "'let*' x ':=' m 'in' k" := (bind m (fun x => k))
  (at level 10, x name, m at level 100, k at level 200).
Notation "m '>>' k" := (bind m (fun _ => k))
  (at level 90, right associativity).

(** [for x in l: body x] *)
Fixpoint for_each {A} (l : list A) (body : A -> M unit) : M unit :=
  match l with
  | [] => ret tt
  | x :: rest => body x >> for_each rest body
  end.

(** [if c: body] *)
Definition when (c : bool) (body : M unit) : M unit :=
  if c then body else ret tt.

(** [try: body finally: cleanup] *)
Definition try_finally {A} (body : M A) (cleanup : M unit) : M A :=
  fun w =>
    match body w with
    | (r, w') =>
        match cleanup w' with
        | (Returned _, w'') => (r, w'')
        | (Raised e, w'') => (Raised e, w'')
        end
    end.

Definition lift {A} (r : Outcome A) : M A := fun w => (r, w).

Definition get {A} (f : World -> A) : M A := fun w => (Returned (f w), w).

Definition modify (f : World -> World) : M unit := fun w => (Returned tt, f w).

(** [a % b] on Python integers: the result has the sign of [b], as [Z.modulo]
    has, and a zero divisor raises. *)
Definition py_mod (a b : Z) : Outcome Z :=
  if b =? 0 then Raised ZeroDivisionError else Returned (a mod b).

(** What [str.lower] makes of a string of ASCII characters: the letters [A]
    to [Z] become [a] to [z].  On other characters [str.lower] follows
    Unicode, which is left to the environment ([py_lower] below); the sample
    environments, whose class names are ASCII, use this function. *)
Definition lower_ascii (c : ascii) : ascii :=
  let n := nat_of_ascii c in
  if ((65 <=? n) && (n <=? 90))%nat then ascii_of_nat (n + 32) else c.

Fixpoint lower (s : string) : string :=
  match s with
  | EmptyString => EmptyString
  | String c rest => String (lower_ascii c) (lower rest)
  end.

(** [os.path.join(d, name)] for a directory path without a trailing slash. *)
Definition path_join (d name : string) : string := d +:+ "/" +:+ name.

(** Truth value of a Python string: only the empty string is false. *)
Definition str_truth (s : string) : bool := negb (String.eqb s "").

(** ** The environment

    What the shim cannot decide: whether a call into the tracking client
    raises (given the call and the calls made so far), whether a logging
    call made while no run is active leaves a run active, what the built-in
    [float] makes of a value, what [str.lower] makes of a string, the text of
    the model summary, the names [tempfile.mkdtemp] hands out, and the rank
    of the process. *)
Record Env := mkEnv {
  client_raises : ApiCall -> list Event -> option Exn;
  starts_run : ApiCall -> list Event -> bool;
  py_float : Value -> Outcome Value;
  py_lower : string -> string;
  model_summary : LightningModule -> string;
  mkdtemp_name : nat -> string;
  rank : nat
}.

(** A method of the trainer class: [self], positional and keyword arguments. *)
Definition Method : Type := nat -> list Value -> list (string * Value) -> M Value.

(** An attribute of the trainer class: a method of the framework, or the
    function [fit] that a call of [_autolog] defines at line 228, which refers
    to the callback class of that call. *)
Inductive Attr :=
| Builtin (m : Method)
| AutologFit (callback_class : nat).

Section Shim.

Variable env : Env.

(** *** The tracking client *)

(** Modelled from the spec: the logging functions of the tracking client are
    not in the source file, and the specification has no sentence on what they
    do to runs.  The fluent functions of mlflow log to the active run and get
    or start one when none is active, so a logging call made while no run is
    active may leave one active, whether it returns or raises: the
    environment says whether it does.  [start_run] and [end_run] start or end
    a run themselves and are not logging calls. *)
Definition implicit_run (c : ApiCall) (w : World) : World :=
  match c with
  | start_run | end_run => w
  | _ =>
      match active_run w with
      | Some _ => w
      | None =>
          if starts_run env c (events w)
          then set_run (Some (runs_started w)) (S (runs_started w)) w
          else w
      end
  end.

(** Modelled from the spec: the tracking client ([mlflow.start_run],
    [mlflow.end_run], [mlflow.active_run] and the logging functions) is not in
    the source file.  A run is started by [start_run] and stays the active
    one until [end_run]; a logging call has the effect of [implicit_run]. *)
Definition client_effect (c : ApiCall) (w : World) : World :=
  match c with
  | start_run => set_run (Some (runs_started w)) (S (runs_started w)) w
  | end_run => set_run None (runs_started w) w
  | _ => implicit_run c w
  end.

(** Modelled from the spec: the client functions are not in the source
    file.  A call of one is recorded; it raises when the environment says so,
    and takes effect otherwise.  A [start_run] or [end_run] that raises
    changes no run. *)
Definition mlflow (c : ApiCall) : M unit :=
  fun w =>
    match client_raises env c (events w) with
    | Some e => (Raised e, add_event (mkEvent c (Some e)) (implicit_run c w))
    | None => (Returned tt, add_event (mkEvent c None) (client_effect c w))
    end.

(** Modelled from the spec: [mlflow.active_run] is not in the source file;
    it returns the active run, or [None]. *)
Definition mlflow_active_run : M (option nat) := get active_run.

(** Modelled from the spec: [try_mlflow_log] of [mlflow.utils.autologging_utils]
    is not in the source file.  It calls the given client function with the
    given arguments and swallows a failure, which becomes a warning. *)
Definition try_mlflow_log (fn : M unit) : M unit :=
  fun w =>
    match fn w with
    | (Returned _, w') => (Returned tt, w')
    | (Raised e, w') => (Returned tt, add_warning e w')
    end.

(** *** Attribute access *)

(** [obj.name] where the attribute may be missing. *)
Definition getattr {A} (name : string) (field : option A) : M A :=
  match field with
  | Some a => ret a
  | None => raise (AttributeError name)
  end.

(** [if hasattr(obj, name): body(obj.name)] *)
Definition if_hasattr {A} (field : option A) (body : A -> M unit) : M unit :=
  match field with
  | Some a => body a
  | None => ret tt
  end.

(** [if key in d: body(d[key])] *)
Definition if_in (d : gmap string Value) (key : string) (body : Value -> M unit)
    : M unit :=
  match d !! key with
  | Some v => body v
  | None => ret tt
  end.

(** *** Temporary files *)

Definition mkdtemp : M string :=
  fun w =>
    let d := mkdtemp_name env (tmp_made w) in
    (Returned d, set_fs (S (tmp_made w)) (d :: tempdirs w) (files w) w).

Definition write_file (path content : string) : M unit :=
  modify (fun w => set_fs (tmp_made w) (tempdirs w) (<[path := content]> (files w)) w).

Definition rmtree (d : string) : M unit :=
  modify (fun w =>
    set_fs (tmp_made w)
           (List.filter (fun d' => negb (String.eqb d d')) (tempdirs w))
           (filter (fun kv => String.prefix (d +:+ "/") kv.1 = false) (files w))
           w).

(** *** The callback class [__MLflowPLCallback] *)

(** [__init__]: a new instance, with [self.early_stopping = False]. *)
Definition new_MLflowPLCallback : M nat :=
  fun w =>
    let o := next_obj w in
    (Returned o, set_early_stopping (<[o := false]> (early_stopping w)) (S o) w).

Definition _log_early_stop_params (early_stop_obj : EarlyStopping) : M unit :=
  if_hasattr (monitor early_stop_obj) (fun v =>
    try_mlflow_log (mlflow (log_param "monitor" v))) >>
  if_hasattr (mode early_stop_obj) (fun v =>
    try_mlflow_log (mlflow (log_param "mode" v))) >>
  if_hasattr (patience early_stop_obj) (fun p =>
    try_mlflow_log (mlflow (log_param "patience" (VInt p)))) >>
  if_hasattr (min_delta early_stop_obj) (fun v =>
    try_mlflow_log (mlflow (log_param "min_delta" v))) >>
  if_hasattr (stopped_epoch early_stop_obj) (fun s =>
    try_mlflow_log (mlflow (log_param "stopped_epoch" (VInt s)))).

Definition _early_stop_check (early_stop_callback : EarlyStopping) : M unit :=
  let* stopped := getattr "stopped_epoch" (stopped_epoch early_stop_callback) in
  when (negb (stopped =? 0))
    (if_hasattr (stopped_epoch early_stop_callback) (fun s =>
       try_mlflow_log (mlflow (log_metric "stopped_epoch" (VInt s) None)) >>
       let* p := getattr "patience" (patience early_stop_callback) in
       let restored_epoch := s - Z.max 1 p in
       try_mlflow_log (mlflow (log_metric "restored_epoch" (VInt restored_epoch) None))) >>
     if_hasattr (best_score early_stop_callback) (fun b =>
       let* f := lift (py_float env b) in
       try_mlflow_log (mlflow (log_metric "best_score" f None))) >>
     if_hasattr (wait_count early_stop_callback) (fun c =>
       try_mlflow_log (mlflow (log_metric "wait_count" c None)))).

(** The loop of lines 66 to 69, and of lines 158 and 159 without a step. *)
Definition log_metrics (step : option Z) (metrics : list (string * Value)) : M unit :=
  for_each metrics (fun kv =>
    let* f := lift (py_float env kv.2) in
    try_mlflow_log (mlflow (log_metric kv.1 f step))).

(** The loop of lines 71 to 73. *)
Definition check_early_stopping (cbs : list Callback) : M unit :=
  for_each cbs (fun callback =>
    match callback with
    | EarlyStoppingCallback es => _early_stop_check es
    | _ => ret tt
    end).

Definition on_epoch_end (self : nat) (trainer : Trainer) (pl_module : LightningModule)
    : M unit :=
  let* n := get every_n_epoch in
  let* r := lift (py_mod (current_epoch pl_module + 1) n) in
  when (r =? 0)
    (log_metrics (Some (current_epoch pl_module)) (callback_metrics trainer)) >>
  check_early_stopping (callbacks trainer).

Definition log_optimizer (optimizer : Optimizer) : M unit :=
  try_mlflow_log (mlflow (log_param "optimizer_name" (VStr (type_name optimizer)))) >>
  let optimizer_name := py_lower env (type_name optimizer) +:+ "_optimizer" in
  if_hasattr (defaults optimizer) (fun optim_dict =>
    if_in optim_dict "lr" (fun v =>
      try_mlflow_log (mlflow (log_param ("learning_rate_" +:+ optimizer_name) v))) >>
    if_in optim_dict "eps" (fun v =>
      try_mlflow_log (mlflow (log_param ("epsilon_" +:+ optimizer_name) v))) >>
    if_in optim_dict "betas" (fun v =>
      try_mlflow_log (mlflow (log_param ("betas_" +:+ optimizer_name) v))) >>
    if_in optim_dict "weight_decay" (fun v =>
      try_mlflow_log (mlflow (log_param ("weight_decay_" +:+ optimizer_name) v)))).

Definition log_model_summary (pl_module : LightningModule) : M unit :=
  let summary := model_summary env pl_module in
  let* tempdir := mkdtemp in
  try_finally
    (let summary_file := path_join tempdir "model_summary.txt" in
     write_file summary_file summary >>
     try_mlflow_log (mlflow (log_artifact summary_file None)))
    (rmtree tempdir).

Definition on_train_start (self : nat) (trainer : Trainer) (pl_module : LightningModule)
    : M unit :=
  try_mlflow_log (mlflow (set_tag "Mode" (VStr "training"))) >>
  try_mlflow_log (mlflow (log_param "epochs" (max_epochs trainer))) >>
  for_each (callbacks trainer) (fun callback =>
    match callback with
    | EarlyStoppingCallback es =>
        modify (fun w =>
          set_early_stopping (<[self := true]> (early_stopping w)) (next_obj w) w) >>
        _log_early_stop_params es
    | _ => ret tt
    end) >>
  if_hasattr (optimizers trainer) (fun opts => for_each opts log_optimizer) >>
  log_model_summary pl_module.

Definition on_train_end (self : nat) (trainer : Trainer) (pl_module : LightningModule)
    : M unit :=
  mlflow (log_model (model trainer) "model") >>
  let* flag := get (fun w => (early_stopping w !! self : option bool)) in
  let* observed := getattr "early_stopping" flag in
  let* cond :=
    (if observed
     then let* cc := getattr "best_model_path" (checkpoint_callback trainer) in
          ret (str_truth (best_model_path cc))
     else ret false) in
  when cond
    (let* cc := getattr "best_model_path" (checkpoint_callback trainer) in
     try_mlflow_log
       (mlflow (log_artifact (best_model_path cc) (Some "restored_model_checkpoint")))).

Definition on_test_end (self : nat) (trainer : Trainer) (pl_module : LightningModule)
    : M unit :=
  try_mlflow_log (mlflow (set_tag "Mode" (VStr "testing"))) >>
  log_metrics None (callback_metrics trainer).

(** *** The patched [fit] *)

(** [isinstance(c, __MLflowPLCallback)], for the class of one call of
    [_autolog]. *)
Definition is_MLflowPLCallback (callback_class : nat) (c : Callback) : bool :=
  match c with
  | MLflowPLCallback k _ => Nat.eqb k callback_class
  | _ => false
  end.

Definition is_EarlyStopping (c : Callback) : bool :=
  match c with
  | EarlyStoppingCallback _ => true
  | _ => false
  end.

(** [self.callbacks] *)
Definition get_callbacks (self : nat) : M (list Callback) :=
  let* t := get (fun w => (trainers w !! self : option Trainer)) in
  let* t := getattr "callbacks" t in
  ret (callbacks t).

(** [self.callbacks += extra]: the list object is extended in place. *)
Definition extend_callbacks (self : nat) (extra : list Callback) : M unit :=
  modify (fun w =>
    set_trainers (alter (fun t => with_callbacks t (callbacks t ++ extra))
                        self (trainers w))
                 w).

(** Lines 214 to 218: start a run unless one is active; the result is
    [auto_end_run]. *)
Definition begin_run : M bool :=
  let* run := mlflow_active_run in
  match run with
  | None => try_mlflow_log (mlflow start_run) >> ret true
  | Some _ => ret false
  end.

(** Lines 220 and 221: add an instance of the callback class unless the
    list has one. *)
Definition register_callback (callback_class self : nat) : M unit :=
  let* cbs := get_callbacks self in
  when (negb (existsb (is_MLflowPLCallback callback_class) cbs))
    (let* o := new_MLflowPLCallback in
     extend_callbacks self [MLflowPLCallback callback_class o]).

Definition _run_and_log_function (callback_class self : nat) (original : Method)
    (args : list Value) (kwargs : list (string * Value)) : M Value :=
  let* auto_end_run := begin_run in
  register_callback callback_class self >>
  let* result := original self args kwargs in
  when auto_end_run (try_mlflow_log (mlflow end_run)) >>
  ret result.

(** Modelled from the spec: the patching library ([gorilla]) and
    [wrap_patch] of [mlflow.utils.autologging_utils] are not in the source
    file.  The module patches a single method on the trainer class; line 232
    reads the method that was there before back from the class, so applying
    the patch keeps that method on the class under a reserved name, unless a
    method is kept there already. *)
Definition original_name (name : string) : string := "_gorilla_original_" +:+ name.

(** Modelled from the spec: [gorilla.get_original_attribute] is not in the
    source file; it reads the method kept under the reserved name. *)
Definition get_original_attribute (cls : gmap string Attr) (name : string) : M Attr :=
  getattr (original_name name) (cls !! original_name name).

(** Modelled from the spec: [wrap_patch] is not in the source file; it
    replaces the one attribute [name] of the class by the patch and keeps the
    attribute that was there, unless one is kept already. *)
Definition wrap_patch (destination : gmap string Attr) (name : string) (patch : Attr)
    : Outcome (gmap string Attr) :=
  match destination !! name with
  | None => Raised (AttributeError name)
  | Some target =>
      let kept :=
        match destination !! original_name name with
        | Some _ => destination
        | None => <[original_name name := target]> destination
        end in
      Returned (<[name := patch]> kept)
  end.

(** The function [fit] of line 228.  A call of the original that comes back
    to [fit] itself recurses; [depth] is the interpreter's recursion limit. *)
Fixpoint fit (depth : nat) (callback_class : nat) (cls : gmap string Attr)
    (self : nat) (args : list Value) (kwargs : list (string * Value)) : M Value :=
  match depth with
  | O => raise RecursionError
  | S d =>
      let* original := get_original_attribute cls "fit" in
      _run_and_log_function callback_class self
        (match original with
         | Builtin m => m
         | AutologFit k => fit d k cls
         end)
        args kwargs
  end.

(** A call of the method [name] on an instance of the class. *)
Definition call_method (depth : nat) (cls : gmap string Attr) (name : string)
    : Method :=
  fun self args kwargs =>
    let* a := getattr name (cls !! name) in
    match a with
    | Builtin m => m self args kwargs
    | AutologFit k => fit depth k cls self args kwargs
    end.

(** Calls of [fit] on the same trainer, one after the other, each with its
    own arguments; a call that raises does not prevent the next. *)
Fixpoint fit_each (depth : nat) (cls : gmap string Attr) (self : nat)
    (invocations : list (list Value * list (string * Value))) (w : World) : World :=
  match invocations with
  | [] => w
  | (args, kwargs) :: rest =>
      fit_each depth cls self rest
        (snd (call_method depth cls "fit" self args kwargs w))
  end.

(** [_autolog], under its decorator [rank_zero_only]: the body runs on the
    process of rank zero only.  It sets the module global, defines the
    callback class (a new object) and patches [fit]. *)
Definition _autolog (log_every_n_epoch : Z) (cls : gmap string Attr) (w : World)
    : Outcome (gmap string Attr) * World :=
  if (rank env =? 0)%nat
  then
    let callback_class := next_obj w in
    (wrap_patch cls "fit" (AutologFit callback_class),
     set_every_n_epoch log_every_n_epoch
       (set_early_stopping (early_stopping w) (S callback_class) w))
  else (Returned cls, w).

(** *** The hooks of a callback *)

(** The hooks the framework fires on a callback.  The class overrides four
    of them; every other hook is the one inherited from [pl.Callback], which
    does nothing. *)
Inductive Hook :=
| EpochEnd
| TrainStart
| TrainEnd
| TestEnd
| Inherited (name : string).

Definition fire (h : Hook) (self : nat) (trainer : Trainer)
    (pl_module : LightningModule) : M unit :=
  match h with
  | EpochEnd => on_epoch_end self trainer pl_module
  | TrainStart => on_train_start self trainer pl_module
  | TrainEnd => on_train_end self trainer pl_module
  | TestEnd => on_test_end self trainer pl_module
  | Inherited _ => ret tt
  end.

End Shim.

(** ** What a computation did *)

(** The client calls made between two stores, oldest first. *)
Definition new_events (w w' : World) : list Event :=
  drop (length (events w)) (events w').

Definition calls (w w' : World) : list ApiCall := map ev_call (new_events w w').

(** The store after a guarded logging call: the call is on the trace, and a
    failure is on the warnings. *)
Definition logged (env : Env) (c : ApiCall) (w : World) : World :=
  match client_raises env c (events w) with
  | Some e => add_warning e (add_event (mkEvent c (Some e)) (implicit_run env c w))
  | None => add_event (mkEvent c None) (client_effect env c w)
  end.

(** The metric calls of a loop over [callback_metrics], for the values that
    [float] accepts. *)
Definition metric_calls (env : Env) (step : option Z)
    (metrics : list (string * Value)) : list ApiCall :=
  flat_map (fun kv =>
    match py_float env kv.2 with
    | Returned f => [log_metric kv.1 f step]
    | Raised _ => []
    end) metrics.

Definition floats_ok (env : Env) (metrics : list (string * Value)) : Prop :=
  Forall (fun kv => exists f, py_float env kv.2 = Returned f) metrics.

(** An autologging callback, of whichever call of [_autolog]. *)
Definition is_autolog_callback (c : Callback) : bool :=
  match c with
  | MLflowPLCallback _ _ => true
  | _ => false
  end.

(** The callback list of a trainer; empty when there is no such trainer. *)
Definition callbacks_of (self : nat) (w : World) : list Callback :=
  match trainers w !! self with
  | Some t => callbacks t
  | None => []
  end.

(** The number of autologging callbacks in a trainer's list. *)
Definition mlflow_callbacks (self : nat) (w : World) : nat :=
  length (List.filter is_autolog_callback (callbacks_of self w)).

(** The calls expected at train start, written from the specification's
    words: one parameter per attribute the early-stopping callback has ... *)
Definition attr_param (name : string) (field : option Value) : list ApiCall :=
  match field with
  | Some v => [log_param name v]
  | None => []
  end.

Definition early_stop_params (es : EarlyStopping) : list ApiCall :=
  attr_param "monitor" (monitor es) ++
  attr_param "mode" (mode es) ++
  attr_param "patience" (VInt <$> patience es) ++
  attr_param "min_delta" (min_delta es) ++
  attr_param "stopped_epoch" (VInt <$> stopped_epoch es).

(** ... and, per optimizer, its class name and one parameter per key its
    defaults have, the name ending in the lower-cased class name and
    [_optimizer]. *)
Definition default_param (env : Env) (prefix : string) (o : Optimizer)
    (key : string) : list ApiCall :=
  match defaults o with
  | Some d =>
      attr_param (prefix +:+ py_lower env (type_name o) +:+ "_optimizer") (d !! key)
  | None => []
  end.

Definition optimizer_params (env : Env) (o : Optimizer) : list ApiCall :=
  log_param "optimizer_name" (VStr (type_name o)) ::
  default_param env "learning_rate_" o "lr" ++
  default_param env "epsilon_" o "eps" ++
  default_param env "betas_" o "betas" ++
  default_param env "weight_decay_" o "weight_decay".

Definition early_stoppers (cbs : list Callback) : list EarlyStopping :=
  flat_map (fun c => match c with EarlyStoppingCallback es => [es] | _ => [] end) cbs.

(** All the calls expected at train start, and the model summary that the
    source logs last; [tmp] counts the temporary directories made before. *)
Definition train_start_calls (env : Env) (trainer : Trainer) (tmp : nat)
    : list ApiCall :=
  [set_tag "Mode" (VStr "training"); log_param "epochs" (max_epochs trainer)] ++
  flat_map early_stop_params (early_stoppers (callbacks trainer)) ++
  flat_map (optimizer_params env) (default [] (optimizers trainer)) ++
  [log_artifact (path_join (mkdtemp_name env tmp) "model_summary.txt") None].

(** The call that logs the best checkpoint at train end, when there is one to
    log. *)
Definition checkpoint_calls (observed : bool) (trainer : Trainer) : list ApiCall :=
  match checkpoint_callback trainer with
  | Some cc =>
      if observed && str_truth (best_model_path cc)
      then [log_artifact (best_model_path cc) (Some "restored_model_checkpoint")]
      else []
  | None => []
  end.

(** Two stores with the same objects: they differ in the tracking client
    only (trace, warnings, runs). *)
Definition same_objects (w w' : World) : Prop :=
  every_n_epoch w' = every_n_epoch w /\
  trainers w' = trainers w /\
  early_stopping w' = early_stopping w /\
  next_obj w' = next_obj w /\
  tmp_made w' = tmp_made w /\
  tempdirs w' = tempdirs w /\
  files w' = files w.

(** ** Predicates on computations *)

(** [wp m Q w]: run from [w], the computation [m] returns, and its result
    and final store satisfy [Q]. *)
Definition wp {A} (m : M A) (Q : A -> World -> Prop) (w : World) : Prop :=
  match m w with
  | (Returned a, w') => Q a w'
  | (Raised _, _) => False
  end.

(** [traced w0 cs w]: from [w0] to [w] exactly the calls [cs] were made. *)
Definition traced (w0 : World) (cs : list ApiCall) (w : World) : Prop :=
  exists l, events w = events w0 ++ l /\ map ev_call l = cs.

(** [emits P m]: whatever [m] does, it only adds client calls that satisfy
    [P] to the trace, also when it raises. *)
Definition emits {A} (P : ApiCall -> Prop) (m : M A) : Prop :=
  forall w, exists l,
    events (snd (m w)) = events w ++ l /\ Forall (fun ev => P (ev_call ev)) l.

(** [did w0 cs w]: from [w0] to [w] exactly the calls [cs] were made, and
    nothing but the tracking client changed. *)
Definition did (w0 : World) (cs : list ApiCall) (w : World) : Prop :=
  traced w0 cs w /\ same_objects w0 w.

(** What [on_train_start] leaves in [self.early_stopping]. *)
Definition flag_after (self : nat) (cbs : list Callback) (w : World) : gmap nat bool :=
  if existsb is_EarlyStopping cbs
  then <[self := true]> (early_stopping w)
  else early_stopping w.

(** [indep m1 m2]: run from stores with the same objects, [m1] and [m2] have
    the same outcome and leave stores with the same objects.  It relates a
    computation under two tracking backends. *)
Definition indep {A} (m1 m2 : M A) : Prop :=
  forall w1 w2,
    same_objects w1 w2 ->
    fst (m1 w1) = fst (m2 w2) /\ same_objects (snd (m1 w1)) (snd (m2 w2)).

(** The callbacks of a trainer after lines 220 and 221. *)
Definition registered_callbacks (callback_class : nat) (t : Trainer) (w : World)
    : list Callback :=
  if existsb (is_MLflowPLCallback callback_class) (callbacks t)
  then callbacks t
  else callbacks t ++ [MLflowPLCallback callback_class (next_obj w)].

(** The store in which the patched [fit] calls the original: after lines
    214 to 221. *)
Definition entry_store (env : Env) (callback_class self : nat) (w : World) : World :=
  snd (register_callback callback_class self (snd (begin_run env w))).

(** The original [fit] adds no autologging callback to the trainer's list:
    the list has no more of them after it, and none that was not there. *)
Definition adds_no_autolog_callback (self : nat) (original : Method) : Prop :=
  forall args kwargs w,
    (mlflow_callbacks self (snd (original self args kwargs w))
       <= mlflow_callbacks self w)%nat /\
    forall c,
      is_autolog_callback c = true ->
      In c (callbacks_of self (snd (original self args kwargs w))) ->
      In c (callbacks_of self w).

(** The script that enables autologging and then calls [fit], from a class and a
    store to the class and the store it leaves. *)
Definition autolog_then_fit (env : Env) (n : Z) (depth self : nat)
    (args : list Value) (kwargs : list (string * Value))
    (state : gmap string Attr * World) : gmap string Attr * World :=
  match _autolog env n state.1 state.2 with
  | (Returned cls, w) => (cls, snd (call_method env depth cls "fit" self args kwargs w))
  | (Raised _, w) => (state.1, w)
  end.

(** The invariant of the callback list under the patched [fit] of the
    class [k]: at most one autologging callback, and of that class. *)
Definition one_callback (k : nat) (l : list Callback) : Prop :=
  (length (List.filter is_autolog_callback l) <= 1)%nat /\
  forall k' o, In (MLflowPLCallback k' o) l -> k' = k.

(** ** What the hooks log, call by call *)

(** The metric for [wait_count], when the callback has the attribute. *)
Definition wait_count_metric (es : EarlyStopping) : list ApiCall :=
  match wait_count es with
  | Some c => [log_metric "wait_count" c None]
  | None => []
  end.

(** The metric for [best_score], when the callback has the attribute and
    [float] accepts it. *)
Definition best_score_metric (env : Env) (es : EarlyStopping) : list ApiCall :=
  match best_score es with
  | Some b =>
      match py_float env b with
      | Returned f => [log_metric "best_score" f None]
      | Raised _ => []
      end
  | None => []
  end.

(** The calls of [_early_stop_check] for a callback that has stopped at
    epoch [s] with patience [p]. *)
Definition stopped_metrics (env : Env) (es : EarlyStopping) (s p : Z) : list ApiCall :=
  [log_metric "stopped_epoch" (VInt s) None;
   log_metric "restored_epoch" (VInt (s - Z.max 1 p)) None] ++
  best_score_metric env es ++ wait_count_metric es.

(** The calls of [_early_stop_check] for a callback whose attributes it can
    read: none before the callback has stopped. *)
Definition early_stop_metrics (env : Env) (es : EarlyStopping) : list ApiCall :=
  match stopped_epoch es, patience es with
  | Some s, Some p => if s =? 0 then [] else stopped_metrics env es s p
  | _, _ => []
  end.

(** An early-stopping callback that [_early_stop_check] can read: it has
    [stopped_epoch], and once it has stopped it has [patience] and a
    [best_score], if any, that [float] accepts. *)
Definition early_stop_ok (env : Env) (es : EarlyStopping) : Prop :=
  exists s,
    stopped_epoch es = Some s /\
    (s <> 0 ->
     (exists p, patience es = Some p) /\
     (forall b, best_score es = Some b -> exists f, py_float env b = Returned f)).

(** The call that logs one metric: its value converted to float, under its
    key, at the given step. *)
Definition metric_logged (env : Env) (step : option Z) (kv : string * Value)
    (c : ApiCall) : Prop :=
  exists f, py_float env kv.2 = Returned f /\ c = log_metric kv.1 f step.

(** [keeps R m]: the store that [m] leaves is related by [R] to the one it
    started from, also when it raises. *)
Definition keeps {A} (R : World -> World -> Prop) (m : M A) : Prop :=
  forall w, R w (snd (m w)).

(** A call of a logging function: any client call but [start_run] and
    [end_run]. *)
Definition is_logging_call (c : ApiCall) : bool :=
  match c with
  | start_run | end_run => false
  | _ => true
  end.

(** What a hook of the callback [self] may change: it adds calls of logging
    functions to the trace (and warnings, and temporary files), and it may set
    its own [early_stopping]; the trainers, the module global and the other
    callbacks stay as they are. *)
Definition hook_frame (self : nat) (w w' : World) : Prop :=
  trainers w' = trainers w /\
  every_n_epoch w' = every_n_epoch w /\
  next_obj w' = next_obj w /\
  (forall o, o <> self -> early_stopping w' !! o = early_stopping w !! o) /\
  (early_stopping w' !! self = early_stopping w !! self \/
   early_stopping w' !! self = Some true) /\
  (exists l, events w' = events w ++ l /\
             Forall (fun ev => is_logging_call (ev_call ev) = true) l).

(** Two stores in which every callback has the same [early_stopping]. *)
Definition same_flags (w w' : World) : Prop :=
  early_stopping w' = early_stopping w.

(** Two stores with the same temporary directories and files. *)
Definition same_files (w w' : World) : Prop :=
  tmp_made w' = tmp_made w /\ tempdirs w' = tempdirs w /\ files w' = files w.

(** The hooks of a training, fired one after the other on the callback
    [self]; a hook that raises does not undo what it did. *)
Fixpoint run_hooks (env : Env) (self : nat)
    (hooks : list (Hook * Trainer * LightningModule)) (w : World) : World :=
  match hooks with
  | [] => w
  | (h, trainer, pl_module) :: rest =>
      run_hooks env self rest (snd (fire env h self trainer pl_module w))
  end.

Definition is_train_start (h : Hook) : bool :=
  match h with
  | TrainStart => true
  | _ => false
  end.

(** ** Sample inputs *)

(** A backend that accepts every call; [float] accepts the values that are
    floats already. *)
Definition healthy : Env :=
  mkEnv (fun _ _ => None)
        (fun _ _ => true)
        (fun v => match v with VFloat _ => Returned v | _ => Raised TypeError end)
        lower
        (fun _ => "  | Name | Type | Params")
        (fun n => "/tmp/tmp" +:+ String.concat "" (replicate n "x"))
        0.

(** A backend that cannot be reached: every call raises. *)
Definition unreachable : Env :=
  mkEnv (fun _ _ => Some (MlflowException "connection refused"))
        (fun _ _ => false)
        (py_float healthy) lower (model_summary healthy) (mkdtemp_name healthy) 0.

Definition stopper : EarlyStopping :=
  mkEarlyStopping (Some (VStr "val_loss")) (Some (VStr "min")) (Some 3)
                  (Some (VFloat 0)) (Some 7) (Some (VFloat 4596373779694328218))
                  (Some (VInt 3)).

(** An early-stopping callback that has just stopped, with no score. *)
Definition just_stopped : EarlyStopping :=
  mkEarlyStopping None None (Some 1) None (Some 1) None None.

(** A trainer with that callback and nothing else to log. *)
Definition bare_trainer : Trainer :=
  mkTrainer (VInt 1) [EarlyStoppingCallback just_stopped] [] None VNone None.

(** An early-stopping callback that has stopped but has no [patience]. *)
Definition no_patience : EarlyStopping :=
  mkEarlyStopping None None None None (Some 3) None None.

(** A trainer whose second metric is not a number. *)
Definition odd_trainer : Trainer :=
  mkTrainer (VInt 10) []
            [("loss", VFloat 4602678819172646912); ("note", VStr "n/a");
             ("val_loss", VFloat 4603579539098121011)]
            None (VObj 1) None.

(** An early-stopping callback that has not stopped. *)
Definition not_stopped : EarlyStopping :=
  mkEarlyStopping (Some (VStr "val_loss")) (Some (VStr "min")) (Some 3)
                  (Some (VFloat 0)) (Some 0) None (Some (VInt 1)).

(** A trainer in the middle of a training that has not stopped early. *)
Definition calm_trainer : Trainer :=
  mkTrainer (VInt 10) [EarlyStoppingCallback not_stopped]
            [("loss", VFloat 4602678819172646912)] None (VObj 1) None.

Definition adam : Optimizer :=
  mkOptimizer "Adam"
    (Some (<["lr" := VFloat 4562254508917369340]>
             (<["eps" := VFloat 4472406533629990549]>
                (<["weight_decay" := VInt 0]> ∅)))).

Definition sample_trainer : Trainer :=
  mkTrainer (VInt 10) [OtherCallback "ProgressBar"; EarlyStoppingCallback stopper]
            [("loss", VFloat 4602678819172646912); ("val_loss", VFloat 4603579539098121011)]
            (Some [adam]) (VObj 1) (Some (mkModelCheckpoint "ckpt/epoch=4.ckpt")).

Definition sample_module : LightningModule := mkLightningModule 4 1.

(** The store when the module has just been imported: [every_n_epoch = 1],
    one trainer (object 0), no run. *)
Definition fresh_world : World :=
  mkWorld 1 [] [] None 0 {[ 0%nat := sample_trainer ]} ∅ 2 0 [] ∅.

(** The same store with an instance of the callback class (object 5) that
    has seen an early-stopping callback. *)
Definition training_world : World :=
  mkWorld 1 [] [] (Some 0%nat) 1 {[ 0%nat := sample_trainer ]} {[ 5%nat := true ]}
          6 0 [] ∅.

(** The store of a training whose callback (object 5) has just been made. *)
Definition registered_world : World :=
  mkWorld 1 [] [] (Some 0%nat) 1 {[ 0%nat := sample_trainer ]} {[ 5%nat := false ]}
          6 0 [] ∅.

(** The store of a training that logs every second epoch. *)
Definition every_other_world : World := set_every_n_epoch 2 training_world.

(** A [fit] of the framework that fails. *)
Definition failing_fit : Method := fun _ _ _ => raise ValueError.

(** The framework's own [fit], as far as the examples need it: it returns
    [None] and logs nothing of its own. *)
Definition plain_fit : Method := fun _ _ _ => ret VNone.

Definition trainer_class : gmap string Attr :=
  <["fit" := Builtin plain_fit]> (<["test" := Builtin plain_fit]> ∅).

(** The class once [_autolog] has patched it. *)
Definition patched_class : gmap string Attr :=
  <["fit" := AutologFit 2]>
    (<["_gorilla_original_fit" := Builtin plain_fit]> trainer_class).

(** * Properties *)

(** ** Reasoning about computations *)

Lemma wp_run {A} (m : M A) Q w :
  wp m Q w -> exists a w', m w = (Returned a, w') /\ Q a w'.
Proof.
  unfold wp. destruct (m w) as [[a|e] w']; [eauto | tauto].
Qed.

Lemma wp_mono {A} (m : M A) (P Q : A -> World -> Prop) w :
  (forall a w', P a w' -> Q a w') -> wp m P w -> wp m Q w.
Proof.
  unfold wp. destruct (m w) as [[a|e] w']; auto.
Qed.

Lemma wp_ret {A} (a : A) (Q : A -> World -> Prop) w : Q a w -> wp (ret a) Q w.
Proof. exact (fun H => H). Qed.

Lemma wp_bind {A B} (m : M A) (k : A -> M B) Q w :
  wp m (fun a w' => wp (k a) Q w') w -> wp (bind m k) Q w.
Proof.
  unfold wp, bind. destruct (m w) as [[a|e] w']; auto.
Qed.

Lemma wp_get {A} (f : World -> A) (Q : A -> World -> Prop) w :
  Q (f w) w -> wp (get f) Q w.
Proof. exact (fun H => H). Qed.

Lemma wp_modify (f : World -> World) (Q : unit -> World -> Prop) w :
  Q tt (f w) -> wp (modify f) Q w.
Proof. exact (fun H => H). Qed.

Lemma wp_lift {A} (a : A) (Q : A -> World -> Prop) w :
  Q a w -> wp (lift (Returned a)) Q w.
Proof. exact (fun H => H). Qed.

Lemma wp_when (c : bool) (body : M unit) (Q : unit -> World -> Prop) w :
  (c = true -> wp body Q w) -> (c = false -> Q tt w) -> wp (when c body) Q w.
Proof.
  destruct c; simpl; intros Ht Hf; [apply Ht | apply wp_ret, Hf]; reflexivity.
Qed.

Lemma wp_try_log env (c : ApiCall) (Q : unit -> World -> Prop) w :
  Q tt (logged env c w) -> wp (try_mlflow_log (mlflow env c)) Q w.
Proof.
  unfold wp, try_mlflow_log, mlflow, logged.
  destruct (client_raises env c (events w)); auto.
Qed.

(** A loop, with an invariant over the elements done so far. *)
Lemma wp_for_each {A} (body : A -> M unit) (I : list A -> World -> Prop) :
  forall (todo done : list A) w,
    (forall pre x post w1,
        done ++ todo = pre ++ x :: post -> I pre w1 ->
        wp (body x) (fun _ w2 => I (pre ++ [x]) w2) w1) ->
    I done w ->
    wp (for_each todo body) (fun _ w' => I (done ++ todo) w') w.
Proof.
  induction todo as [|x todo IH]; intros done w Hbody Hinv; simpl.
  - apply wp_ret. now rewrite app_nil_r.
  - apply wp_bind.
    eapply wp_mono; [| apply (Hbody done x todo w); [reflexivity | exact Hinv]].
    intros u w1 H1. simpl in H1.
    replace (done ++ x :: todo) with ((done ++ [x]) ++ todo)
      by (rewrite <- app_assoc; reflexivity).
    apply IH; [| exact H1].
    intros pre y post w2 Heq. apply (Hbody pre y post).
    rewrite <- Heq, <- app_assoc. reflexivity.
Qed.

(** *** The trace of client calls *)

Lemma traced_refl w : traced w [] w.
Proof. exists []. now rewrite app_nil_r. Qed.

Lemma traced_calls w0 cs w : traced w0 cs w -> calls w0 w = cs.
Proof.
  intros (l & He & Hl). unfold calls, new_events.
  rewrite He, drop_app_length. exact Hl.
Qed.

Lemma traced_new_events w0 cs w :
  traced w0 cs w -> events w = events w0 ++ new_events w0 w.
Proof.
  intros (l & He & _). unfold new_events. now rewrite He, drop_app_length.
Qed.

(** A client call changes nothing in the store but the runs (and the trace). *)
Lemma implicit_run_eq env c w :
  exists r n, implicit_run env c w = set_run r n w.
Proof.
  exists (active_run (implicit_run env c w)), (runs_started (implicit_run env c w)).
  destruct w as [n evs ws [r|] rs ts es nxt made dirs fs]; destruct c;
    cbn; try reflexivity;
    match goal with |- context [starts_run ?e ?c ?l] => destruct (starts_run e c l) end;
    reflexivity.
Qed.

Lemma client_effect_eq env c w :
  exists r n, client_effect env c w = set_run r n w.
Proof.
  destruct c; try apply implicit_run_eq; cbn [client_effect]; eauto.
Qed.

(** Replaces the store after a client call by the store with its runs set. *)
Ltac set_runs :=
  repeat match goal with
         | |- context [implicit_run ?e ?c ?w] =>
             let r := fresh "r" in
             let n := fresh "n" in
             destruct (implicit_run_eq e c w) as (r & n & ->)
         | |- context [client_effect ?e ?c ?w] =>
             let r := fresh "r" in
             let n := fresh "n" in
             destruct (client_effect_eq e c w) as (r & n & ->)
         end.

Lemma events_logged env c w :
  events (logged env c w) = events w ++ [mkEvent c (client_raises env c (events w))].
Proof.
  unfold logged. destruct (client_raises env c (events w)); set_runs; reflexivity.
Qed.

Lemma traced_logged env w0 cs c w :
  traced w0 cs w -> traced w0 (cs ++ [c]) (logged env c w).
Proof.
  intros (l & He & Hl).
  exists (l ++ [mkEvent c (client_raises env c (events w))]). split.
  - rewrite events_logged, He, app_assoc. reflexivity.
  - rewrite map_app, Hl. reflexivity.
Qed.

Lemma events_mlflow env c w :
  events (snd (mlflow env c w)) =
    events w ++ [mkEvent c (client_raises env c (events w))].
Proof.
  unfold mlflow. destruct (client_raises env c (events w)); set_runs; reflexivity.
Qed.

Lemma traced_mlflow env w0 cs c w :
  traced w0 cs w -> traced w0 (cs ++ [c]) (snd (mlflow env c w)).
Proof.
  intros (l & He & Hl).
  exists (l ++ [mkEvent c (client_raises env c (events w))]). split.
  - rewrite events_mlflow, He, app_assoc. reflexivity.
  - rewrite map_app, Hl. reflexivity.
Qed.

Lemma traced_same_events w0 cs w w' :
  events w' = events w -> traced w0 cs w -> traced w0 cs w'.
Proof. intros E (l & He & Hl). exists l. now rewrite E. Qed.

Lemma traced_app w0 cs1 w1 cs2 w2 :
  traced w0 cs1 w1 -> traced w1 cs2 w2 -> traced w0 (cs1 ++ cs2) w2.
Proof.
  intros (l1 & H1 & M1) (l2 & H2 & M2). exists (l1 ++ l2). split.
  - now rewrite H2, H1, app_assoc.
  - now rewrite map_app, M1, M2.
Qed.

(** What a guarded logging call leaves alone. *)
Lemma logged_frame env c w :
  every_n_epoch (logged env c w) = every_n_epoch w /\
  trainers (logged env c w) = trainers w /\
  early_stopping (logged env c w) = early_stopping w /\
  next_obj (logged env c w) = next_obj w /\
  tmp_made (logged env c w) = tmp_made w /\
  tempdirs (logged env c w) = tempdirs w /\
  files (logged env c w) = files w.
Proof.
  unfold logged. destruct (client_raises env c (events w)); set_runs;
    now repeat split.
Qed.

(** The wrapper never raises, whatever it wraps. *)
Lemma try_mlflow_log_returns (fn : M unit) w :
  fst (try_mlflow_log fn w) = Returned tt.
Proof.
  unfold try_mlflow_log. destruct (fn w) as [[u|e] w']; reflexivity.
Qed.

Lemma try_log_eq env c w :
  try_mlflow_log (mlflow env c) w = (Returned tt, logged env c w).
Proof.
  unfold try_mlflow_log, mlflow, logged.
  destruct (client_raises env c (events w)); reflexivity.
Qed.

Lemma bind_try_log {B} env c (k : unit -> M B) w :
  bind (try_mlflow_log (mlflow env c)) k w = k tt (logged env c w).
Proof. unfold bind. now rewrite try_log_eq. Qed.

Lemma bind_ret {A B} (a : A) (k : A -> M B) w : bind (ret a) k w = k a w.
Proof. reflexivity. Qed.

Lemma bind_get {A B} (f : World -> A) (k : A -> M B) w :
  bind (get f) k w = k (f w) w.
Proof. reflexivity. Qed.

Lemma bind_bind {A B C} (m : M A) (k : A -> M B) (h : B -> M C) w :
  bind (bind m k) h w = bind m (fun a => bind (k a) h) w.
Proof. unfold bind. now destruct (m w) as [[a|e] w']. Qed.

Lemma bind_raise {A B} e (k : A -> M B) w : bind (raise e) k w = (Raised e, w).
Proof. reflexivity. Qed.

(** Rewrites [calls w w'] into the list of calls when [w'] is [w] after some
    guarded calls. *)
Ltac calls_by_trace :=
  match goal with
  | |- context [calls ?w0 ?w1] =>
      let H := fresh "Htr" in
      eassert (H : traced w0 _ w1)
        by (repeat eapply traced_logged; apply traced_refl);
      rewrite (traced_calls _ _ _ H); clear H; cbn [app]
  end.

(** ** Early-stopping metrics at epoch end *)

(** C10.  [_early_stop_check] logs nothing when the callback's
    [stopped_epoch] is zero, so a stop at epoch 0 is never logged (nor is
    anything logged when the callback has no [stopped_epoch]).  When it is
    not zero, the first two calls are the metric [stopped_epoch] and the
    metric [restored_epoch], whose value is [stopped_epoch] minus the larger
    of 1 and [patience]; no other call logs [restored_epoch]. *)
Theorem early_stop_check_restored_epoch env (es : EarlyStopping) (w : World) :
  (stopped_epoch es = Some 0 ->
     _early_stop_check env es w = (Returned tt, w)) /\
  (stopped_epoch es = None ->
     snd (_early_stop_check env es w) = w) /\
  (forall s p,
     stopped_epoch es = Some s -> s <> 0 -> patience es = Some p ->
     exists rest,
       calls w (snd (_early_stop_check env es w)) =
         log_metric "stopped_epoch" (VInt s) None
           :: log_metric "restored_epoch" (VInt (s - Z.max 1 p)) None
           :: rest /\
       forall v st, ~ In (log_metric "restored_epoch" v st) rest).
Proof.
  split; [| split].
  - intros Hs. unfold _early_stop_check. rewrite Hs. reflexivity.
  - intros Hs. unfold _early_stop_check. rewrite Hs. reflexivity.
  - intros s p Hs Hnz Hp. unfold _early_stop_check. rewrite Hs, Hp.
    cbn [getattr]. rewrite bind_ret.
    destruct (Z.eqb_spec s 0) as [|_]; [contradiction |].
    cbn [negb when if_hasattr].
    unfold bind at 1. rewrite bind_try_log, bind_ret, try_log_eq.
    destruct (best_score es) as [b|]; cbn [if_hasattr].
    + unfold bind at 1. unfold bind at 1. unfold lift.
      destruct (py_float env b) as [f|e].
      * rewrite try_log_eq.
        destruct (wait_count es) as [c|]; cbn [if_hasattr].
        -- rewrite try_log_eq. cbn [snd]. calls_by_trace.
           eexists. split; [reflexivity |].
           cbn. intros v st [H|[H|[]]]; discriminate.
        -- cbn [ret snd]. calls_by_trace.
           eexists. split; [reflexivity |].
           cbn. intros v st [H|[]]; discriminate.
      * cbn [snd]. calls_by_trace.
        eexists. split; [reflexivity |]. cbn. intros v st [].
    + rewrite bind_ret.
      destruct (wait_count es) as [c|]; cbn [if_hasattr].
      * rewrite try_log_eq. cbn [snd]. calls_by_trace.
        eexists. split; [reflexivity |].
        cbn. intros v st [H|[]]; discriminate.
      * cbn [ret snd]. calls_by_trace.
        eexists. split; [reflexivity |]. cbn. intros v st [].
Qed.

Lemma early_stop_check_restored_epoch_witness :
  exists rest,
    calls training_world (snd (_early_stop_check healthy stopper training_world)) =
      log_metric "stopped_epoch" (VInt 7) None
        :: log_metric "restored_epoch" (VInt 4) None :: rest /\
    forall v st, ~ In (log_metric "restored_epoch" v st) rest.
Proof.
  apply (proj2 (proj2 (early_stop_check_restored_epoch healthy stopper training_world))
           7 3); [reflexivity | lia | reflexivity].
Defined.

(** *** Computations that make only certain calls *)

Lemma emits_nothing {A} P (m : M A) :
  (forall w, events (snd (m w)) = events w) -> emits P m.
Proof.
  intros H w. exists []. split; [now rewrite H, app_nil_r | constructor].
Qed.

Lemma emits_ret {A} P (a : A) : emits P (ret a).
Proof. now apply emits_nothing. Qed.

Lemma emits_raise {A} P e : emits P (@raise A e).
Proof. now apply emits_nothing. Qed.

Lemma emits_lift {A} P (r : Outcome A) : emits P (lift r).
Proof. now apply emits_nothing. Qed.

Lemma emits_get {A} P (f : World -> A) : emits P (get f).
Proof. now apply emits_nothing. Qed.

Lemma emits_getattr {A} P name (field : option A) : emits P (getattr name field).
Proof. destruct field; [apply emits_ret | apply emits_raise]. Qed.

Lemma emits_bind {A B} P (m : M A) (k : A -> M B) :
  emits P m -> (forall a, emits P (k a)) -> emits P (bind m k).
Proof.
  intros Hm Hk w. unfold bind.
  destruct (Hm w) as (l1 & E1 & F1).
  destruct (m w) as [[a|e] w1]; cbn [snd] in *.
  - destruct (Hk a w1) as (l2 & E2 & F2).
    exists (l1 ++ l2). split.
    + now rewrite E2, E1, app_assoc.
    + now apply Forall_app.
  - exists l1. now split.
Qed.

Lemma emits_try_log env (P : ApiCall -> Prop) c :
  P c -> emits P (try_mlflow_log (mlflow env c)).
Proof.
  intros Hc w. rewrite try_log_eq. cbn [snd].
  eexists. split; [apply events_logged |]. now repeat constructor.
Qed.

Lemma emits_when P c body : emits P body -> emits P (when c body).
Proof. destruct c; intros H; [exact H | apply emits_ret]. Qed.

Lemma emits_if_hasattr {A} P (field : option A) body :
  (forall a, emits P (body a)) -> emits P (if_hasattr field body).
Proof. destruct field; intros H; [apply H | apply emits_ret]. Qed.

Lemma emits_for_each {A} P (l : list A) body :
  (forall x, emits P (body x)) -> emits P (for_each l body).
Proof.
  intros Hb. induction l as [|x l IH]; cbn [for_each].
  - apply emits_ret.
  - apply emits_bind; auto.
Qed.

Lemma emits_calls {A} P (m : M A) w :
  emits P m -> Forall P (calls w (snd (m w))).
Proof.
  intros H. destruct (H w) as (l & E & F).
  unfold calls, new_events. rewrite E, drop_app_length.
  now apply Forall_map.
Qed.

Lemma calls_refl w : calls w w = [].
Proof. apply traced_calls, traced_refl. Qed.

(** ** Metrics at epoch end *)

(** The loop over [callback_metrics] of lines 66 to 69 and 158 to 159: when
    [float] accepts every value, it returns and has logged every key. *)
Lemma metrics_loop env step metrics :
  floats_ok env metrics ->
  forall w0 cs w,
    traced w0 cs w ->
    wp (log_metrics env step metrics)
       (fun _ w' => traced w0 (cs ++ metric_calls env step metrics) w') w.
Proof.
  unfold log_metrics.
  induction 1 as [|kv metrics [f Hf] _ IH]; intros w0 cs w Htr; cbn [for_each].
  - apply wp_ret. cbn. now rewrite app_nil_r.
  - apply wp_bind, wp_bind. rewrite Hf. apply wp_lift, wp_try_log.
    cbn [metric_calls flat_map]. rewrite Hf.
    rewrite app_assoc. apply IH. now apply traced_logged.
Qed.

(** The loop over the early-stopping callbacks of lines 71 to 73 only makes
    metric calls without a step. *)
Lemma early_stop_check_emits env es :
  emits (fun c => exists k v, c = log_metric k v None) (_early_stop_check env es).
Proof.
  unfold _early_stop_check.
  apply emits_bind; [apply emits_getattr |]. intros s.
  apply emits_when.
  repeat first
    [ apply emits_bind; [| intros ?]
    | apply emits_if_hasattr; intros ?
    | apply emits_try_log; eauto
    | apply emits_getattr
    | apply emits_lift ].
Qed.

Lemma early_stop_loop_emits env cbs :
  emits (fun c => exists k v, c = log_metric k v None) (check_early_stopping env cbs).
Proof.
  apply emits_for_each. intros [o|es|name];
    [apply emits_ret | apply early_stop_check_emits | apply emits_ret].
Qed.

Lemma in_metric_calls env step metrics key value f :
  In (key, value) metrics -> py_float env value = Returned f ->
  In (log_metric key f step) (metric_calls env step metrics).
Proof.
  intros Hin Hf. unfold metric_calls. apply in_flat_map.
  exists (key, value). split; [exact Hin |]. cbn. rewrite Hf. now left.
Qed.

Lemma on_epoch_end_eq env self trainer pl_module w :
  on_epoch_end env self trainer pl_module w =
  match py_mod (current_epoch pl_module + 1) (every_n_epoch w) with
  | Returned r =>
      (when (r =? 0)
         (log_metrics env (Some (current_epoch pl_module)) (callback_metrics trainer)) >>
       check_early_stopping env (callbacks trainer)) w
  | Raised e => (Raised e, w)
  end.
Proof.
  unfold on_epoch_end. unfold bind at 1. cbn [get]. unfold bind at 1. unfold lift.
  now destruct (py_mod (current_epoch pl_module + 1) (every_n_epoch w)).
Qed.

(** C4.  At epoch end, when the epoch number is not negative and [float]
    accepts every metric value, each key of [trainer.callback_metrics] is
    logged as a metric, with its value converted to float and the step equal
    to [current_epoch], exactly when [every_n_epoch] divides
    [current_epoch + 1]; with the interval 1 it is logged at every epoch. *)
Theorem on_epoch_end_logs_metrics env self trainer pl_module w :
  0 <= current_epoch pl_module ->
  floats_ok env (callback_metrics trainer) ->
  forall key value f,
    In (key, value) (callback_metrics trainer) ->
    py_float env value = Returned f ->
    (In (log_metric key f (Some (current_epoch pl_module)))
        (calls w (snd (on_epoch_end env self trainer pl_module w)))
     <-> (every_n_epoch w | current_epoch pl_module + 1)) /\
    (every_n_epoch w = 1 ->
     In (log_metric key f (Some (current_epoch pl_module)))
        (calls w (snd (on_epoch_end env self trainer pl_module w)))).
Proof.
  intros Hce Hok key value f Hin Hf.
  set (step := Some (current_epoch pl_module)).
  assert (Hdiv : In (log_metric key f step)
                    (calls w (snd (on_epoch_end env self trainer pl_module w)))
                 <-> (every_n_epoch w | current_epoch pl_module + 1)).
  { rewrite on_epoch_end_eq. unfold py_mod.
    destruct (Z.eqb_spec (every_n_epoch w) 0) as [Hz|Hnz].
    - cbn [snd]. rewrite calls_refl. split; [intros [] |].
      rewrite Hz. intros Hd. apply Z.divide_0_l in Hd. lia.
    - rewrite <- (Z.mod_divide _ _ Hnz).
      destruct (Z.eqb_spec ((current_epoch pl_module + 1) mod every_n_epoch w) 0)
        as [Hr|Hr]; cbn [when].
      + split; [intros _; exact Hr | intros _].
        pose proof (metrics_loop env step _ Hok w [] w (traced_refl w)) as Hloop.
        apply wp_run in Hloop. destruct Hloop as ([] & w1 & Hrun & Htr).
        fold step. unfold bind. rewrite Hrun.
        destruct (early_stop_loop_emits env (callbacks trainer) w1) as (l & El & _).
        assert (Htr2 : traced w1 (map ev_call l)
                 (snd (check_early_stopping env (callbacks trainer) w1)))
          by (exists l; now split).
        rewrite (traced_calls _ _ _ (traced_app _ _ _ _ _ Htr Htr2)).
        apply in_or_app. left. cbn [app]. now apply (in_metric_calls _ _ _ _ value).
      + split; [| intros E; contradiction]. intros Hcall. exfalso.
        rewrite bind_ret in Hcall.
        pose proof (emits_calls _ _ w (early_stop_loop_emits env (callbacks trainer)))
          as Hall.
        rewrite List.Forall_forall in Hall. destruct (Hall _ Hcall) as (k & v & E).
        discriminate E. }
  split; [exact Hdiv |].
  intros H1. apply Hdiv. rewrite H1. apply Z.divide_1_l.
Qed.

Lemma on_epoch_end_logs_metrics_witness :
  (In (log_metric "loss" (VFloat 4602678819172646912) (Some 4))
      (calls training_world
         (snd (on_epoch_end healthy 5 sample_trainer sample_module training_world)))
   <-> (1 | 4 + 1)) /\
  (1 = 1 ->
   In (log_metric "loss" (VFloat 4602678819172646912) (Some 4))
      (calls training_world
         (snd (on_epoch_end healthy 5 sample_trainer sample_module training_world)))).
Proof.
  apply (on_epoch_end_logs_metrics healthy 5 sample_trainer sample_module
           training_world ltac:(cbn; lia)
           ltac:(repeat constructor; eexists; reflexivity)
           "loss" (VFloat 4602678819172646912) (VFloat 4602678819172646912)
           ltac:(cbn; auto) eq_refl).
Defined.

(** ** Calls and the rest of the store *)

Lemma same_objects_refl w : same_objects w w.
Proof. now repeat split. Qed.

Lemma same_objects_trans w1 w2 w3 :
  same_objects w1 w2 -> same_objects w2 w3 -> same_objects w1 w3.
Proof.
  unfold same_objects. intros (A1 & A2 & A3 & A4 & A5 & A6 & A7)
    (B1 & B2 & B3 & B4 & B5 & B6 & B7).
  repeat split; congruence.
Qed.

Lemma same_objects_logged env c w : same_objects w (logged env c w).
Proof. apply logged_frame. Qed.

Lemma did_refl w : did w [] w.
Proof. split; [apply traced_refl | apply same_objects_refl]. Qed.

Lemma did_logged env w0 cs c w :
  did w0 cs w -> did w0 (cs ++ [c]) (logged env c w).
Proof.
  intros [Ht Hs]. split; [now apply traced_logged |].
  eapply same_objects_trans; [exact Hs | apply same_objects_logged].
Qed.

Lemma did_trans w0 cs1 w1 cs2 w2 :
  did w0 cs1 w1 -> did w1 cs2 w2 -> did w0 (cs1 ++ cs2) w2.
Proof.
  intros [T1 S1] [T2 S2]. split;
    [eapply traced_app | eapply same_objects_trans]; eassumption.
Qed.

(** ** Parameters at train start *)

(** [if hasattr(obj, name): try_mlflow_log(mlflow.log_param, name, obj.name)] *)
Lemma wp_attr_param {A} env name (g : A -> Value) (field : option A)
    (Q : unit -> World -> Prop) w0 cs w :
  did w0 cs w ->
  (forall w', did w0 (cs ++ attr_param name (g <$> field)) w' -> Q tt w') ->
  wp (if_hasattr field (fun a => try_mlflow_log (mlflow env (log_param name (g a))))) Q w.
Proof.
  intros Hd HQ. destruct field as [a|]; cbn.
  - apply wp_try_log, HQ. now apply did_logged.
  - apply wp_ret, HQ. now rewrite app_nil_r.
Qed.

Lemma wp_log_early_stop_params env es (Q : unit -> World -> Prop) w :
  (forall w', did w (early_stop_params es) w' -> Q tt w') ->
  wp (_log_early_stop_params env es) Q w.
Proof.
  intros HQ. unfold _log_early_stop_params, early_stop_params in *.
  apply wp_bind, (wp_attr_param env "monitor" id _ _ w []); [apply did_refl |].
  intros w1 H1. rewrite option_fmap_id in H1.
  apply wp_bind, (wp_attr_param env "mode" id _ _ w _ _ H1).
  intros w2 H2. rewrite option_fmap_id in H2.
  apply wp_bind, (wp_attr_param env "patience" VInt _ _ w _ _ H2).
  intros w3 H3.
  apply wp_bind, (wp_attr_param env "min_delta" id _ _ w _ _ H3).
  intros w4 H4. rewrite option_fmap_id in H4.
  apply (wp_attr_param env "stopped_epoch" VInt _ _ w _ _ H4).
  intros w5 H5. apply HQ. cbn [app] in H5.
  now rewrite <- !app_assoc in H5.
Qed.

(** [if key in d: try_mlflow_log(mlflow.log_param, prefix + optimizer_name, d[key])] *)
Lemma wp_default_param env prefix o d key (Q : unit -> World -> Prop) w0 cs w :
  defaults o = Some d ->
  did w0 cs w ->
  (forall w', did w0 (cs ++ default_param env prefix o key) w' -> Q tt w') ->
  wp (if_in d key (fun v =>
        try_mlflow_log
          (mlflow env
             (log_param (prefix +:+ py_lower env (type_name o) +:+ "_optimizer") v))))
     Q w.
Proof.
  intros Hd Hw HQ. unfold if_in, default_param in *. rewrite Hd in HQ.
  destruct (d !! key) as [v|]; cbn in *.
  - apply wp_try_log, HQ. now apply did_logged.
  - apply wp_ret, HQ. now rewrite app_nil_r.
Qed.

Lemma wp_log_optimizer env o (Q : unit -> World -> Prop) w :
  (forall w', did w (optimizer_params env o) w' -> Q tt w') ->
  wp (log_optimizer env o) Q w.
Proof.
  intros HQ. unfold log_optimizer, optimizer_params in *.
  apply wp_bind, wp_try_log.
  pose proof (did_logged env w [] (log_param "optimizer_name" (VStr (type_name o))) w
                (did_refl w)) as H0.
  cbn [app] in H0.
  destruct (defaults o) as [d|] eqn:Hd; cbn [if_hasattr].
  - apply wp_bind, (wp_default_param env "learning_rate_" o d "lr" _ w _ _ Hd H0).
    intros w1 H1.
    apply wp_bind, (wp_default_param env "epsilon_" o d "eps" _ w _ _ Hd H1).
    intros w2 H2.
    apply wp_bind, (wp_default_param env "betas_" o d "betas" _ w _ _ Hd H2).
    intros w3 H3.
    apply (wp_default_param env "weight_decay_" o d "weight_decay" _ w _ _ Hd H3).
    intros w4 H4. apply HQ. cbn [app] in H4.
    now rewrite <- !app_assoc in H4.
  - apply wp_ret, HQ. unfold default_param. rewrite Hd. exact H0.
Qed.

Lemma logged_early_stopping env c w :
  early_stopping (logged env c w) = early_stopping w.
Proof. apply logged_frame. Qed.

Lemma logged_tempdirs env c w : tempdirs (logged env c w) = tempdirs w.
Proof. apply logged_frame. Qed.

Lemma wp_log_model_summary env pl_module (Q : unit -> World -> Prop) w :
  (forall w',
      traced w [log_artifact
                  (path_join (mkdtemp_name env (tmp_made w)) "model_summary.txt")
                  None] w' ->
      early_stopping w' = early_stopping w ->
      tempdirs w' =
        List.filter (fun d => negb (String.eqb (mkdtemp_name env (tmp_made w)) d))
                    (mkdtemp_name env (tmp_made w) :: tempdirs w) ->
      Q tt w') ->
  wp (log_model_summary env pl_module) Q w.
Proof.
  intros HQ.
  unfold wp, log_model_summary, bind, mkdtemp, try_finally, write_file, rmtree, modify.
  rewrite try_log_eq. apply HQ.
  - eexists. split.
    + cbn [events set_fs]. rewrite events_logged. reflexivity.
    + reflexivity.
  - cbn [early_stopping set_fs]. now rewrite logged_early_stopping.
  - cbn [tempdirs set_fs]. now rewrite logged_tempdirs.
Qed.

(** Closes [traced w cs w'] from a proof [T] of it for a list of calls that
    is the same up to the bracketing of appends. *)
Ltac retrace T :=
  refine (eq_rect _ (fun cs => traced _ cs _) T _ _);
  unfold early_stoppers; rewrite ?flat_map_app; cbn;
  rewrite ?app_nil_r, <- ?app_assoc; reflexivity.

Lemma early_stoppers_app l1 l2 :
  early_stoppers (l1 ++ l2) = early_stoppers l1 ++ early_stoppers l2.
Proof. unfold early_stoppers. apply flat_map_app. Qed.

(** [on_train_start] always returns; it makes the calls of
    [train_start_calls] and sets [self.early_stopping] when the trainer has an
    early-stopping callback. *)
Lemma wp_on_train_start env self trainer pl_module (Q : unit -> World -> Prop) w :
  (forall w',
      traced w (train_start_calls env trainer (tmp_made w)) w' ->
      early_stopping w' = flag_after self (callbacks trainer) w ->
      Q tt w') ->
  wp (on_train_start env self trainer pl_module) Q w.
Proof.
  intros HQ. unfold on_train_start.
  apply wp_bind, wp_try_log, wp_bind, wp_try_log.
  set (c1 := set_tag "Mode" (VStr "training")).
  set (c2 := log_param "epochs" (max_epochs trainer)).
  assert (H0 : did w [c1; c2] (logged env c2 (logged env c1 w)))
    by (apply (did_logged env w [c1]), (did_logged env w []), did_refl).
  destruct H0 as [T0 S0]. set (w0 := logged env c2 (logged env c1 w)) in *.
  apply wp_bind.
  (* the loop over the callbacks *)
  pose (I := fun (done : list Callback) (w1 : World) =>
    traced w ([c1; c2] ++ flat_map early_stop_params (early_stoppers done)) w1 /\
    tmp_made w1 = tmp_made w /\
    early_stopping w1 = flag_after self done w).
  eapply wp_mono;
    [| apply (wp_for_each _ I (callbacks trainer) [] w0) ].
  - intros [] w1 (T1 & M1 & F1). cbn [app] in T1, M1, F1.
    apply wp_bind.
    (* the loop over the optimizers *)
    set (cs1 := c1 :: c2 :: flat_map early_stop_params (early_stoppers (callbacks trainer))) in *.
    assert (Hopt : forall (Q' : unit -> World -> Prop),
      (forall w2,
          traced w (cs1 ++ flat_map (optimizer_params env) (default [] (optimizers trainer))) w2 ->
          tmp_made w2 = tmp_made w ->
          early_stopping w2 = flag_after self (callbacks trainer) w ->
          Q' tt w2) ->
      wp (if_hasattr (optimizers trainer) (fun opts => for_each opts (log_optimizer env)))
         Q' w1).
    { intros Q' HQ'. destruct (optimizers trainer) as [opts|]; cbn [if_hasattr default].
      - pose (J := fun (done : list Optimizer) (w2 : World) =>
          traced w (cs1 ++ flat_map (optimizer_params env) done) w2 /\
          tmp_made w2 = tmp_made w /\
          early_stopping w2 = flag_after self (callbacks trainer) w).
        eapply wp_mono; [| apply (wp_for_each _ J opts [] w1) ].
        + intros [] w2 (T2 & M2 & F2). now apply HQ'.
        + intros pre o post w2 _ (T2 & M2 & F2).
          apply wp_log_optimizer. intros w3 [T3 S3]. repeat split.
          * retrace (traced_app _ _ _ _ _ T2 T3).
          * destruct S3 as (_ & _ & _ & _ & -> & _). exact M2.
          * destruct S3 as (_ & _ & -> & _). exact F2.
        + repeat split; [| exact M1 | exact F1].
          cbn [flat_map]. now rewrite app_nil_r.
      - apply wp_ret, HQ'; [| exact M1 | exact F1].
        cbn [flat_map]. now rewrite app_nil_r. }
    apply Hopt. intros w2 T2 M2 F2.
    apply wp_log_model_summary. intros w3 T3 F3 _.
    apply HQ.
    + unfold train_start_calls. rewrite M2 in T3.
      pose proof (traced_app _ _ _ _ _ T2 T3) as T.
      unfold cs1 in T. cbn [app] in *. now rewrite <- app_assoc in T.
    + now rewrite F3.
  - intros pre x post w1 _ (T1 & M1 & F1).
    destruct x as [o|es|name].
    + apply wp_ret. repeat split; [| exact M1 |].
      * rewrite early_stoppers_app. cbn. now rewrite !app_nil_r.
      * rewrite F1. unfold flag_after. rewrite existsb_app. cbn.
        now rewrite orb_false_r.
    + apply wp_bind, wp_modify, wp_log_early_stop_params.
      intros w2 [T2 S2]. repeat split.
      * retrace (traced_app _ _ _ _ _
                   (traced_same_events w _ w1
                      (set_early_stopping (<[self:=true]> (early_stopping w1))
                         (next_obj w1) w1) eq_refl T1) T2).
      * destruct S2 as (_ & _ & _ & _ & -> & _). exact M1.
      * destruct S2 as (_ & _ & -> & _). cbn [early_stopping set_early_stopping].
        rewrite F1. unfold flag_after. rewrite existsb_app. cbn.
        rewrite orb_true_r.
        destruct (existsb is_EarlyStopping pre); [apply insert_insert_eq | reflexivity].
    + apply wp_ret. repeat split; [| exact M1 |].
      * rewrite early_stoppers_app. cbn. now rewrite !app_nil_r.
      * rewrite F1. unfold flag_after. rewrite existsb_app. cbn.
        now rewrite orb_false_r.
  - repeat split.
    + exact T0.
    + now destruct S0 as (_ & _ & _ & _ & -> & _).
    + now destruct S0 as (_ & _ & -> & _).
Qed.

Lemma on_train_start_returns env self trainer pl_module w :
  fst (on_train_start env self trainer pl_module w) = Returned tt.
Proof.
  pose proof (wp_on_train_start env self trainer pl_module (fun _ _ => True) w
                (fun _ _ _ => Logic.I)) as H.
  apply wp_run in H. destruct H as ([] & w' & -> & _). reflexivity.
Qed.

Lemma on_train_start_calls env self trainer pl_module w :
  calls w (snd (on_train_start env self trainer pl_module w)) =
    train_start_calls env trainer (tmp_made w).
Proof.
  pose proof (wp_on_train_start env self trainer pl_module
                (fun _ w' => traced w (train_start_calls env trainer (tmp_made w)) w') w
                (fun _ T _ => T)) as H.
  apply wp_run in H. destruct H as ([] & w' & -> & T).
  apply (traced_calls _ _ _ T).
Qed.

Lemma in_attr_param c name field :
  In c (attr_param name field) <-> exists v, field = Some v /\ c = log_param name v.
Proof.
  destruct field as [v|]; cbn.
  - split.
    + intros [<-|[]]. now exists v.
    + intros (v' & [= <-] & ->). now left.
  - split; [intros [] | intros (v & [=] & _)].
Qed.

Lemma in_early_stop_params es c :
  In c (early_stop_params es) <->
  (exists v, monitor es = Some v /\ c = log_param "monitor" v) \/
  (exists v, mode es = Some v /\ c = log_param "mode" v) \/
  (exists p, patience es = Some p /\ c = log_param "patience" (VInt p)) \/
  (exists v, min_delta es = Some v /\ c = log_param "min_delta" v) \/
  (exists s, stopped_epoch es = Some s /\ c = log_param "stopped_epoch" (VInt s)).
Proof.
  unfold early_stop_params. rewrite !in_app_iff, !in_attr_param.
  destruct (patience es) as [p|], (stopped_epoch es) as [s|]; cbn; naive_solver.
Qed.

Lemma in_default_param env prefix o key c :
  In c (default_param env prefix o key) <->
  exists d v, defaults o = Some d /\ d !! key = Some v /\
              c = log_param (prefix +:+ py_lower env (type_name o) +:+ "_optimizer") v.
Proof.
  unfold default_param. destruct (defaults o) as [d|].
  - rewrite in_attr_param. naive_solver.
  - cbn. naive_solver.
Qed.

Lemma in_optimizer_params env o c :
  In c (optimizer_params env o) <->
  c = log_param "optimizer_name" (VStr (type_name o)) \/
  exists d v, defaults o = Some d /\
    let optimizer_name := py_lower env (type_name o) +:+ "_optimizer" in
    (d !! "lr" = Some v /\ c = log_param ("learning_rate_" +:+ optimizer_name) v \/
     d !! "eps" = Some v /\ c = log_param ("epsilon_" +:+ optimizer_name) v \/
     d !! "betas" = Some v /\ c = log_param ("betas_" +:+ optimizer_name) v \/
     d !! "weight_decay" = Some v /\
       c = log_param ("weight_decay_" +:+ optimizer_name) v).
Proof.
  unfold optimizer_params. cbn [In]. rewrite !in_app_iff, !in_default_param.
  cbn zeta. naive_solver.
Qed.

(** C6.  [on_train_start] returns, and the calls it makes are, in order: the
    tag [Mode = training]; the parameter [epochs]; for every early-stopping
    callback of the trainer the parameters [monitor], [mode], [patience],
    [min_delta] and [stopped_epoch], each exactly when the callback has the
    attribute; for every optimizer its class name and the learning rate,
    epsilon, betas and weight decay, each exactly when the key is in the
    optimizer's defaults, under a name that ends in the lower-cased class name
    (what [str.lower] makes of the class name, [py_lower]) and [_optimizer];
    and last the model summary. *)
Theorem on_train_start_logs_parameters env self trainer pl_module w :
  fst (on_train_start env self trainer pl_module w) = Returned tt /\
  calls w (snd (on_train_start env self trainer pl_module w)) =
    [set_tag "Mode" (VStr "training"); log_param "epochs" (max_epochs trainer)] ++
    flat_map early_stop_params (early_stoppers (callbacks trainer)) ++
    flat_map (optimizer_params env) (default [] (optimizers trainer)) ++
    [log_artifact (path_join (mkdtemp_name env (tmp_made w)) "model_summary.txt")
                  None] /\
  (forall es, In (EarlyStoppingCallback es) (callbacks trainer) <->
              In es (early_stoppers (callbacks trainer))) /\
  (forall es c, In c (early_stop_params es) <->
     (exists v, monitor es = Some v /\ c = log_param "monitor" v) \/
     (exists v, mode es = Some v /\ c = log_param "mode" v) \/
     (exists p, patience es = Some p /\ c = log_param "patience" (VInt p)) \/
     (exists v, min_delta es = Some v /\ c = log_param "min_delta" v) \/
     (exists s, stopped_epoch es = Some s /\
                c = log_param "stopped_epoch" (VInt s))) /\
  (forall o c, In c (optimizer_params env o) <->
     c = log_param "optimizer_name" (VStr (type_name o)) \/
     exists d v, defaults o = Some d /\
       let optimizer_name := py_lower env (type_name o) +:+ "_optimizer" in
       (d !! "lr" = Some v /\
          c = log_param ("learning_rate_" +:+ optimizer_name) v \/
        d !! "eps" = Some v /\ c = log_param ("epsilon_" +:+ optimizer_name) v \/
        d !! "betas" = Some v /\ c = log_param ("betas_" +:+ optimizer_name) v \/
        d !! "weight_decay" = Some v /\
          c = log_param ("weight_decay_" +:+ optimizer_name) v)).
Proof.
  split; [| split; [| split; [| split]]].
  - apply on_train_start_returns.
  - apply on_train_start_calls.
  - intros es. unfold early_stoppers. rewrite in_flat_map. split.
    + intros H. exists (EarlyStoppingCallback es). split; [exact H | now left].
    + intros ([o|es'|name] & H & Hin); cbn in Hin; try tauto.
      destruct Hin as [<-|[]]. exact H.
  - apply in_early_stop_params.
  - apply in_optimizer_params.
Qed.

Lemma on_train_start_logs_parameters_witness :
  calls training_world
    (snd (on_train_start healthy 5 sample_trainer sample_module training_world)) =
  [set_tag "Mode" (VStr "training"); log_param "epochs" (VInt 10);
   log_param "monitor" (VStr "val_loss"); log_param "mode" (VStr "min");
   log_param "patience" (VInt 3); log_param "min_delta" (VFloat 0);
   log_param "stopped_epoch" (VInt 7);
   log_param "optimizer_name" (VStr "Adam");
   log_param "learning_rate_adam_optimizer" (VFloat 4562254508917369340);
   log_param "epsilon_adam_optimizer" (VFloat 4472406533629990549);
   log_param "weight_decay_adam_optimizer" (VInt 0);
   log_artifact "/tmp/tmp/model_summary.txt" None].
Proof.
  exact (proj1 (proj2 (on_train_start_logs_parameters healthy 5 sample_trainer
                         sample_module training_world))).
Defined.

(** ** Model and checkpoint at train end *)

Lemma on_train_end_eq env self trainer pl_module w :
  on_train_end env self trainer pl_module w =
  let c := log_model (model trainer) "model" in
  let w1 := snd (mlflow env c w) in
  match client_raises env c (events w) with
  | Some e => (Raised e, w1)
  | None =>
      match early_stopping w !! self with
      | None => (Raised (AttributeError "early_stopping"), w1)
      | Some false => (Returned tt, w1)
      | Some true =>
          match checkpoint_callback trainer with
          | None => (Raised (AttributeError "best_model_path"), w1)
          | Some cc =>
              if str_truth (best_model_path cc)
              then (Returned tt,
                    logged env (log_artifact (best_model_path cc)
                                  (Some "restored_model_checkpoint")) w1)
              else (Returned tt, w1)
          end
      end
  end.
Proof.
  unfold on_train_end. unfold bind at 1. unfold mlflow. cbn zeta.
  destruct (client_raises env (log_model (model trainer) "model") (events w));
    [reflexivity |].
  set_runs. cbn [snd]. unfold bind at 1.
  cbn [get early_stopping add_event set_run].
  destruct (early_stopping w !! self) as [[|]|]; cbn [getattr];
    [| reflexivity | reflexivity].
  rewrite bind_ret.
  destruct (checkpoint_callback trainer) as [cc|]; cbn [getattr]; [| reflexivity].
  unfold bind at 1. rewrite bind_ret. cbn [ret].
  destruct (str_truth (best_model_path cc)); cbn [when]; [| reflexivity].
  rewrite bind_ret. apply try_log_eq.
Qed.

Lemma str_truth_nonempty s : str_truth s = true <-> s <> "".
Proof.
  unfold str_truth. destruct (String.eqb_spec s ""); cbn; split; congruence.
Qed.

Lemma on_train_end_first_call env self trainer pl_module w :
  exists rest,
    calls w (snd (on_train_end env self trainer pl_module w)) =
      log_model (model trainer) "model" :: rest.
Proof.
  rewrite on_train_end_eq. cbn zeta.
  pose proof (traced_mlflow env w [] (log_model (model trainer) "model") w
                (traced_refl w)) as T1.
  destruct (client_raises env (log_model (model trainer) "model") (events w)).
  - cbn [snd]. eexists. apply (traced_calls _ _ _ T1).
  - destruct (early_stopping w !! self) as [[|]|]; cbn [snd];
      try (eexists; apply (traced_calls _ _ _ T1)).
    destruct (checkpoint_callback trainer) as [cc|]; cbn [snd];
      try (eexists; apply (traced_calls _ _ _ T1)).
    destruct (str_truth (best_model_path cc)); cbn [snd];
      try (eexists; apply (traced_calls _ _ _ T1)).
    eexists. apply traced_calls.
    apply (traced_logged env _ _ _ _ T1).
Qed.

(** C5.  At train end the first call stores the trained model under the
    artifact path [model].  When that call returns, the only other call is the
    one that logs the best checkpoint under [restored_model_checkpoint], and
    it is made exactly when [self.early_stopping] is set and the checkpoint
    callback's [best_model_path] is not empty.  [self.early_stopping] is set at
    train start, exactly when the trainer has an early-stopping callback
    then (and it stays as it was otherwise). *)
Theorem on_train_end_logs_model_and_checkpoint env self trainer pl_module w :
  (exists rest,
     calls w (snd (on_train_end env self trainer pl_module w)) =
       log_model (model trainer) "model" :: rest) /\
  (forall observed,
     client_raises env (log_model (model trainer) "model") (events w) = None ->
     early_stopping w !! self = Some observed ->
     calls w (snd (on_train_end env self trainer pl_module w)) =
       log_model (model trainer) "model" :: checkpoint_calls observed trainer /\
     forall c, In c (checkpoint_calls observed trainer) <->
       observed = true /\
       exists cc, checkpoint_callback trainer = Some cc /\
                  best_model_path cc <> "" /\
                  c = log_artifact (best_model_path cc)
                        (Some "restored_model_checkpoint")) /\
  (forall trainer0 pl_module0 w0,
     early_stopping (snd (on_train_start env self trainer0 pl_module0 w0)) !! self =
       if existsb is_EarlyStopping (callbacks trainer0)
       then Some true
       else early_stopping w0 !! self).
Proof.
  split; [| split].
  - apply on_train_end_first_call.
  - intros observed Hok Hflag. split.
    + rewrite on_train_end_eq. cbn zeta. rewrite Hok, Hflag.
      pose proof (traced_mlflow env w [] (log_model (model trainer) "model") w
                    (traced_refl w)) as T1.
      unfold checkpoint_calls.
      destruct observed; cbn [andb snd].
      * destruct (checkpoint_callback trainer) as [cc|]; cbn [snd];
          [| apply (traced_calls _ _ _ T1)].
        destruct (str_truth (best_model_path cc)); cbn [snd];
          [| apply (traced_calls _ _ _ T1)].
        apply traced_calls. apply (traced_logged env _ _ _ _ T1).
      * destruct (checkpoint_callback trainer); apply (traced_calls _ _ _ T1).
    + intros c. unfold checkpoint_calls.
      destruct (checkpoint_callback trainer) as [cc|].
      * destruct observed; cbn [andb].
        -- destruct (str_truth (best_model_path cc)) eqn:Ht; cbn [In].
           ++ apply str_truth_nonempty in Ht. split.
              ** intros [<-|[]]. split; [reflexivity |]. now exists cc.
              ** intros (_ & cc' & [= <-] & _ & ->). now left.
           ++ split; [intros [] |].
              intros (_ & cc' & [= <-] & Hne & _).
              apply str_truth_nonempty in Hne. congruence.
        -- cbn [In]. split; [intros [] | intros [[=] _]].
      * cbn [In]. split; [intros [] | intros (_ & cc & [=] & _)].
  - intros trainer0 pl_module0 w0.
    pose proof (wp_on_train_start env self trainer0 pl_module0
                  (fun _ w' => early_stopping w' = flag_after self (callbacks trainer0) w0)
                  w0 (fun _ _ F => F)) as H.
    apply wp_run in H. destruct H as ([] & w' & -> & F). cbn [snd].
    rewrite F. unfold flag_after.
    destruct (existsb is_EarlyStopping (callbacks trainer0));
      [apply lookup_insert_eq | reflexivity].
Qed.

Lemma on_train_end_logs_model_and_checkpoint_witness :
  calls training_world
    (snd (on_train_end healthy 5 sample_trainer sample_module training_world)) =
  [log_model (VObj 1) "model";
   log_artifact "ckpt/epoch=4.ckpt" (Some "restored_model_checkpoint")].
Proof.
  exact (proj1 (proj1 (proj2 (on_train_end_logs_model_and_checkpoint healthy 5
                                sample_trainer sample_module training_world))
                  true eq_refl eq_refl)).
Defined.

(** ** Failures of the tracking client *)

Lemma same_objects_sym w1 w2 : same_objects w1 w2 -> same_objects w2 w1.
Proof.
  unfold same_objects. intros (A1 & A2 & A3 & A4 & A5 & A6 & A7).
  now repeat split.
Qed.

Lemma indep_ret {A} (a : A) : indep (ret a) (ret a).
Proof. intros w1 w2 H. now split. Qed.

Lemma indep_raise {A} e : indep (@raise A e) (raise e).
Proof. intros w1 w2 H. now split. Qed.

Lemma indep_lift {A} (r : Outcome A) : indep (lift r) (lift r).
Proof. intros w1 w2 H. now split. Qed.

Lemma indep_getattr {A} name (field : option A) :
  indep (getattr name field) (getattr name field).
Proof. destruct field; [apply indep_ret | apply indep_raise]. Qed.

Lemma indep_get_every_n_epoch : indep (get every_n_epoch) (get every_n_epoch).
Proof.
  intros w1 w2 H. split; [| exact H]. cbn. f_equal. symmetry. apply H.
Qed.

Lemma indep_bind {A B} (m1 m2 : M A) (k1 k2 : A -> M B) :
  indep m1 m2 -> (forall a, indep (k1 a) (k2 a)) ->
  indep (bind m1 k1) (bind m2 k2).
Proof.
  intros Hm Hk w1 w2 H. unfold bind.
  destruct (Hm w1 w2 H) as [Ho Hs].
  destruct (m1 w1) as [[a1|e1] w1'], (m2 w2) as [[a2|e2] w2'];
    cbn [fst snd] in *; try discriminate.
  - injection Ho as ->. now apply Hk.
  - injection Ho as ->. now split.
Qed.

Lemma indep_try_log env env' c :
  indep (try_mlflow_log (mlflow env c)) (try_mlflow_log (mlflow env' c)).
Proof.
  intros w1 w2 H. rewrite !try_log_eq. split; [reflexivity |]. cbn [snd].
  eapply same_objects_trans; [| apply same_objects_logged].
  eapply same_objects_trans; [| exact H].
  apply same_objects_sym, same_objects_logged.
Qed.

Lemma indep_when c body1 body2 :
  indep body1 body2 -> indep (when c body1) (when c body2).
Proof. destruct c; intros H; [exact H | apply indep_ret]. Qed.

Lemma indep_if_hasattr {A} (field : option A) body1 body2 :
  (forall a, indep (body1 a) (body2 a)) ->
  indep (if_hasattr field body1) (if_hasattr field body2).
Proof. destruct field; intros H; [apply H | apply indep_ret]. Qed.

Lemma indep_for_each {A} (l : list A) body1 body2 :
  (forall x, indep (body1 x) (body2 x)) ->
  indep (for_each l body1) (for_each l body2).
Proof.
  intros Hb. induction l as [|x l IH]; cbn [for_each].
  - apply indep_ret.
  - apply indep_bind; auto.
Qed.

Ltac indep_steps :=
  repeat first
    [ apply indep_try_log
    | apply indep_ret
    | apply indep_lift
    | apply indep_getattr
    | apply indep_get_every_n_epoch
    | apply indep_bind; [| intros ?]
    | apply indep_when
    | apply indep_if_hasattr; intros ?
    | apply indep_for_each; intros ? ].

(** X18.  The hooks that log through [try_mlflow_log] only: whether they return or
    raise does not depend on the tracking backend. *)
Lemma guarded_hooks_ignore_client_failures env env' self trainer pl_module w :
  py_float env' = py_float env ->
  fst (on_epoch_end env self trainer pl_module w) =
    fst (on_epoch_end env' self trainer pl_module w) /\
  fst (on_test_end env self trainer pl_module w) =
    fst (on_test_end env' self trainer pl_module w) /\
  fst (on_train_start env self trainer pl_module w) =
    fst (on_train_start env' self trainer pl_module w).
Proof.
  intros Hf. split; [| split].
  - assert (H : indep (on_epoch_end env self trainer pl_module)
                      (on_epoch_end env' self trainer pl_module)).
    { unfold on_epoch_end, log_metrics, check_early_stopping, _early_stop_check.
      rewrite Hf. indep_steps. destruct x; indep_steps. }
    apply (H w w (same_objects_refl w)).
  - assert (H : indep (on_test_end env self trainer pl_module)
                      (on_test_end env' self trainer pl_module)).
    { unfold on_test_end, log_metrics. rewrite Hf. indep_steps. }
    apply (H w w (same_objects_refl w)).
  - now rewrite !on_train_start_returns.
Qed.

(** C1.  A failure of the call that stores the model is not swallowed:
    [on_train_end] calls [mlflow.pytorch.log_model] without the wrapper
    (line 141), so with a backend that cannot be reached the hook raises the
    backend's exception, and the best checkpoint is not logged either. *)
Theorem on_train_end_aborts_on_log_model_failure :
  fst (on_train_end unreachable 5 sample_trainer sample_module training_world) =
    Raised (MlflowException "connection refused") /\
  calls training_world
    (snd (on_train_end unreachable 5 sample_trainer sample_module training_world)) =
    [log_model (VObj 1) "model"].
Proof.
  rewrite on_train_end_eq. cbn zeta. split; [reflexivity |].
  apply traced_calls. eexists. split; reflexivity.
Qed.

(** The same for every store and every backend that fails on that call. *)
Lemma on_train_end_propagates env self trainer pl_module w e :
  client_raises env (log_model (model trainer) "model") (events w) = Some e ->
  fst (on_train_end env self trainer pl_module w) = Raised e.
Proof.
  intros H. rewrite on_train_end_eq. cbn zeta. now rewrite H.
Qed.

(** ** The hooks the callback reacts to *)

Lemma calls_cons_nonempty w c cs w' : traced w (c :: cs) w' -> calls w w' <> [].
Proof. intros T. now rewrite (traced_calls _ _ _ T). Qed.

Lemma wp_early_stop_check_stopped env es s p (Q : unit -> World -> Prop) w :
  stopped_epoch es = Some s -> s <> 0 -> patience es = Some p ->
  best_score es = None -> wait_count es = None ->
  Q tt (logged env (log_metric "restored_epoch" (VInt (s - Z.max 1 p)) None)
          (logged env (log_metric "stopped_epoch" (VInt s) None) w)) ->
  wp (_early_stop_check env es) Q w.
Proof.
  intros Hs Hnz Hp Hb Hw HQ. unfold wp, _early_stop_check.
  rewrite Hs, Hp, Hb, Hw. cbn [getattr]. rewrite bind_ret.
  destruct (Z.eqb_spec s 0) as [|_]; [contradiction |].
  cbn [negb when if_hasattr].
  unfold bind at 1. rewrite bind_try_log, bind_ret, try_log_eq.
  rewrite bind_ret. exact HQ.
Qed.

(** C7.  A hook that the callback class inherits does nothing: it returns
    and leaves the store, and so the trace of client calls, as it was.  The
    hooks on which the callback makes a client call for some input are
    exactly epoch end, train start, train end and test end. *)
Theorem callback_logs_from_four_hooks env :
  (forall name self trainer pl_module w,
     fire env (Inherited name) self trainer pl_module w = (Returned tt, w)) /\
  (forall h,
     (exists self trainer pl_module w,
        calls w (snd (fire env h self trainer pl_module w)) <> []) <->
     In h [EpochEnd; TrainStart; TrainEnd; TestEnd]).
Proof.
  split; [reflexivity |]. intros h. split.
  - intros (self & trainer & pl_module & w & Hc).
    destruct h as [| | | |name]; cbn [In]; auto.
    exfalso. apply Hc. cbn [fire ret snd]. apply calls_refl.
  - intros Hin.
    exists 5%nat, bare_trainer, sample_module, training_world.
    destruct h as [| | | |name]; cbn [fire].
    + assert (H : wp (on_epoch_end env 5 bare_trainer sample_module)
                    (fun _ w' =>
                       traced training_world
                         [log_metric "stopped_epoch" (VInt 1) None;
                          log_metric "restored_epoch" (VInt (1 - Z.max 1 1)) None] w')
                    training_world).
      { unfold on_epoch_end. apply wp_bind, wp_get, wp_bind.
        change (py_mod (current_epoch sample_module + 1) (every_n_epoch training_world))
          with (Returned 0).
        apply wp_lift, wp_bind, wp_when; [intros _ | intros [=]].
        change (callback_metrics bare_trainer) with (@nil (string * Value)).
        apply wp_ret.
        change (callbacks bare_trainer) with [EarlyStoppingCallback just_stopped].
        unfold check_early_stopping. cbn [for_each].
        apply wp_bind, (wp_early_stop_check_stopped env just_stopped 1 1);
          try reflexivity; [lia |].
        apply wp_ret.
        apply (traced_logged env _ [_]), (traced_logged env _ []), traced_refl. }
      apply wp_run in H. destruct H as ([] & w' & -> & T).
      apply (calls_cons_nonempty _ _ _ _ T).
    + rewrite on_train_start_calls. discriminate.
    + destruct (on_train_end_first_call env 5 bare_trainer sample_module training_world)
        as (rest & ->). discriminate.
    + unfold on_test_end, log_metrics. cbn [bare_trainer callback_metrics for_each].
      rewrite bind_try_log. cbn [ret snd].
      eapply calls_cons_nonempty. apply (traced_logged env _ []), traced_refl.
    + cbn in Hin. intuition discriminate.
Qed.

(** ** The patched [fit] *)

Lemma begin_run_eq env w :
  begin_run env w =
  match active_run w with
  | None => (Returned true, logged env start_run w)
  | Some _ => (Returned false, w)
  end.
Proof.
  unfold begin_run, mlflow_active_run. rewrite bind_get.
  destruct (active_run w); [reflexivity |].
  now rewrite bind_try_log.
Qed.

Lemma with_callbacks_id t : with_callbacks t (callbacks t) = t.
Proof. now destruct t. Qed.

Lemma register_callback_live k self w t :
  trainers w !! self = Some t ->
  exists w1,
    register_callback k self w = (Returned tt, w1) /\
    events w1 = events w /\
    active_run w1 = active_run w /\
    runs_started w1 = runs_started w /\
    every_n_epoch w1 = every_n_epoch w /\
    trainers w1 !! self = Some (with_callbacks t (registered_callbacks k t w)) /\
    (forall other, other <> self -> trainers w1 !! other = trainers w !! other).
Proof.
  intros Ht. unfold register_callback, get_callbacks, registered_callbacks.
  rewrite bind_bind, bind_get, Ht. cbn [getattr]. rewrite bind_bind, !bind_ret.
  destruct (existsb (is_MLflowPLCallback k) (callbacks t)); cbn [negb when].
  - exists w. rewrite with_callbacks_id. now repeat split.
  - eexists. split; [reflexivity |]. cbn. repeat split.
    + now rewrite lookup_alter_eq, Ht.
    + intros other Hne. now rewrite lookup_alter_ne.
Qed.

Lemma register_callback_dead k self w :
  trainers w !! self = None ->
  register_callback k self w = (Raised (AttributeError "callbacks"), w).
Proof.
  intros Ht. unfold register_callback, get_callbacks.
  now rewrite bind_bind, bind_get, Ht.
Qed.

Lemma logged_trainers env c w : trainers (logged env c w) = trainers w.
Proof. apply logged_frame. Qed.

Lemma begin_run_trainers env w : trainers (snd (begin_run env w)) = trainers w.
Proof.
  rewrite begin_run_eq. destruct (active_run w); [reflexivity |].
  apply logged_trainers.
Qed.

Lemma run_and_log_function_eq env k self original args kwargs w t :
  trainers w !! self = Some t ->
  _run_and_log_function env k self original args kwargs w =
  match original self args kwargs (entry_store env k self w) with
  | (Returned v, w2) =>
      (Returned v,
       match active_run w with
       | None => logged env end_run w2
       | Some _ => w2
       end)
  | (Raised e, w2) => (Raised e, w2)
  end.
Proof.
  intros Ht. unfold _run_and_log_function, entry_store. unfold bind at 1.
  assert (Ht0 : trainers (snd (begin_run env w)) !! self = Some t)
    by now rewrite begin_run_trainers.
  destruct (register_callback_live k self _ t Ht0) as (w1 & E & _).
  rewrite begin_run_eq in *.
  destruct (active_run w); cbn [snd] in *; unfold bind at 1; rewrite E;
    cbn [snd]; unfold bind at 1;
    destruct (original self args kwargs w1) as [[v|e] w2]; try reflexivity.
  cbn [when]. now rewrite bind_try_log.
Qed.

Lemma run_and_log_function_dead env k self original args kwargs w :
  trainers w !! self = None ->
  trainers (snd (_run_and_log_function env k self original args kwargs w)) =
    trainers w.
Proof.
  intros Ht. unfold _run_and_log_function. unfold bind at 1.
  pose proof (begin_run_trainers env w) as Hb.
  destruct (begin_run env w) as [[b|e] w0]; cbn [snd] in *; [| exact Hb].
  unfold bind at 1. rewrite register_callback_dead by now rewrite Hb.
  exact Hb.
Qed.

Lemma entry_store_spec env k self w t :
  trainers w !! self = Some t ->
  events (entry_store env k self w) = events (snd (begin_run env w)) /\
  active_run (entry_store env k self w) = active_run (snd (begin_run env w)) /\
  trainers (entry_store env k self w) !! self =
    Some (with_callbacks t (registered_callbacks k t (snd (begin_run env w)))).
Proof.
  intros Ht. unfold entry_store.
  assert (Ht0 : trainers (snd (begin_run env w)) !! self = Some t)
    by now rewrite begin_run_trainers.
  destruct (register_callback_live k self _ t Ht0) as (w1 & E & Ev & Ar & _ & _ & Tr & _).
  rewrite E. cbn [snd]. now repeat split.
Qed.

(** C2.  Let the patched [fit] be called on a trainer.  When no run is
    active at entry, it calls [start_run] before the original [fit] (a run is
    then active, if the call succeeds), and when the original returns it calls
    [end_run] after it (no run is active then, if the call succeeds).  When a
    run is active at entry, it makes no call of its own: its outcome and final
    store are those of the original, so a run that the original leaves active
    is still the active one after [fit]. *)
Theorem run_and_log_function_manages_run env k self original args kwargs w t :
  trainers w !! self = Some t ->
  let w1 := entry_store env k self w in
  let patched := _run_and_log_function env k self original args kwargs w in
  (active_run w = None ->
     (exists err, events w1 = events w ++ [mkEvent start_run err] /\
                  (err = None -> active_run w1 = Some (runs_started w))) /\
     (forall v w2,
        original self args kwargs w1 = (Returned v, w2) ->
        fst patched = Returned v /\
        exists err, events (snd patched) = events w2 ++ [mkEvent end_run err] /\
                    (err = None -> active_run (snd patched) = None))) /\
  (forall r,
     active_run w = Some r ->
     events w1 = events w /\
     active_run w1 = Some r /\
     patched = original self args kwargs w1 /\
     (active_run (snd (original self args kwargs w1)) = active_run w1 ->
      active_run (snd patched) = Some r)).
Proof.
  intros Ht w1 patched. subst w1 patched.
  rewrite (run_and_log_function_eq env k self original args kwargs w t Ht).
  destruct (entry_store_spec env k self w t Ht) as (Ev & Ar & _).
  rewrite begin_run_eq in Ev, Ar.
  split.
  - intros Hnone. rewrite Hnone in *. cbn [snd] in Ev, Ar. split.
    + exists (client_raises env start_run (events w)). split.
      * now rewrite Ev, events_logged.
      * intros Herr. rewrite Ar. unfold logged. now rewrite Herr.
    + intros v w2 Ho. rewrite Ho. cbn [fst snd]. split; [reflexivity |].
      exists (client_raises env end_run (events w2)). split.
      * apply events_logged.
      * intros Herr. unfold logged. now rewrite Herr.
  - intros r Hr. rewrite Hr in *. cbn [snd] in Ev, Ar. rewrite Hr in Ar.
    repeat split; [exact Ev | exact Ar | |].
    + now destruct (original self args kwargs (entry_store env k self w)) as [[v|e] w2].
    + destruct (original self args kwargs (entry_store env k self w)) as [[v|e] w2];
        cbn [snd]; intros ->; exact Ar.
Qed.

Lemma run_and_log_function_manages_run_witness :
  exists err,
    events (entry_store healthy 2 0%nat fresh_world) =
      events fresh_world ++ [mkEvent start_run err] /\
    (err = None ->
     active_run (entry_store healthy 2 0%nat fresh_world) =
       Some (runs_started fresh_world)).
Proof.
  exact (proj1 (proj1 (run_and_log_function_manages_run healthy 2 0%nat plain_fit [] []
                         fresh_world sample_trainer eq_refl) eq_refl)).
Defined.

Lemma fit_eq env depth k cls orig self args kwargs w :
  cls !! original_name "fit" = Some (Builtin orig) ->
  fit env (S depth) k cls self args kwargs w =
    _run_and_log_function env k self orig args kwargs w.
Proof.
  intros H. cbn [fit]. unfold get_original_attribute. rewrite H.
  cbn [getattr]. now rewrite bind_ret.
Qed.

Lemma call_patched_fit env depth k cls self args kwargs w :
  cls !! "fit" = Some (AutologFit k) ->
  call_method env depth cls "fit" self args kwargs w =
    fit env depth k cls self args kwargs w.
Proof.
  intros H. unfold call_method. rewrite H. cbn [getattr]. now rewrite bind_ret.
Qed.

Lemma original_name_fit : original_name "fit" <> "fit".
Proof. discriminate. Qed.

(** What [_autolog] does to the class on the process of rank zero. *)
Lemma autolog_class env n cls0 w0 a :
  rank env = 0%nat ->
  cls0 !! "fit" = Some a ->
  exists cls,
    fst (_autolog env n cls0 w0) = Returned cls /\
    cls !! "fit" = Some (AutologFit (next_obj w0)) /\
    cls !! original_name "fit" =
      Some (default a (cls0 !! original_name "fit")) /\
    (forall name, name <> "fit" -> name <> original_name "fit" ->
                  cls !! name = cls0 !! name).
Proof.
  intros Hr Hfit. unfold _autolog, wrap_patch. rewrite Hr, Hfit. cbn [Nat.eqb fst].
  eexists. split; [reflexivity |]. split; [apply lookup_insert_eq |].
  pose proof original_name_fit as Hne.
  destruct (cls0 !! original_name "fit") as [o|] eqn:Ho; cbn [default]; split.
  - rewrite lookup_insert_ne by congruence. exact Ho.
  - intros name H1 H2. now rewrite lookup_insert_ne by congruence.
  - rewrite lookup_insert_ne by congruence. apply lookup_insert_eq.
  - intros name H1 H2. now rewrite !lookup_insert_ne by congruence.
Qed.

(** C8.  On the class that [_autolog] has patched, [fit] has the outcome of
    the original, unpatched [fit] (the method kept as the original, or the
    [fit] that was there when none was kept): it is called on the same trainer
    with the same arguments, in the store that lines 214 to 221 leave, and
    what it returns (or raises) is what the patched [fit] returns (or
    raises).  The trainer it is called on differs from the one at entry in
    its callback list only. *)
Theorem patched_fit_returns_original_result
    env n depth cls0 cls current orig self args kwargs w0 w t :
  rank env = 0%nat ->
  cls0 !! "fit" = Some current ->
  default current (cls0 !! original_name "fit") = Builtin orig ->
  fst (_autolog env n cls0 w0) = Returned cls ->
  trainers w !! self = Some t ->
  let w1 := entry_store env (next_obj w0) self w in
  fst (call_method env (S depth) cls "fit" self args kwargs w) =
    fst (orig self args kwargs w1) /\
  exists cbs, trainers w1 !! self = Some (with_callbacks t cbs).
Proof.
  intros Hr Hfit Horig Hauto Ht w1. subst w1.
  destruct (autolog_class env n cls0 w0 _ Hr Hfit) as (cls' & E & Hp & Ho & _).
  rewrite E in Hauto. injection Hauto as ->.
  rewrite Horig in Ho.
  split.
  - rewrite (call_patched_fit _ _ _ _ _ _ _ _ Hp), (fit_eq _ _ _ _ _ _ _ _ _ Ho).
    rewrite (run_and_log_function_eq _ _ _ _ _ _ _ _ Ht).
    now destruct (orig self args kwargs (entry_store env (next_obj w0) self w))
      as [[v|e] w2].
  - destruct (entry_store_spec env (next_obj w0) self w t Ht) as (_ & _ & Hc).
    eexists. exact Hc.
Qed.

Lemma patched_fit_returns_original_result_witness :
  fst (call_method healthy 1 patched_class "fit" 0%nat [VObj 1] [] fresh_world) =
    fst (plain_fit 0%nat [VObj 1] [] (entry_store healthy 2 0%nat fresh_world)) /\
  exists cbs,
    trainers (entry_store healthy 2 0%nat fresh_world) !! 0%nat =
      Some (with_callbacks sample_trainer cbs).
Proof.
  exact (patched_fit_returns_original_result healthy 2 0 trainer_class patched_class
           (Builtin plain_fit) plain_fit 0%nat [VObj 1] [] fresh_world fresh_world
           sample_trainer eq_refl eq_refl eq_refl eq_refl eq_refl).
Defined.

(** ** Registering the callback *)

Lemma existsb_filter_nil {A} (p : A -> bool) l :
  existsb p l = false -> List.filter p l = [].
Proof.
  induction l as [|x l IH]; cbn; [reflexivity |].
  destruct (p x); cbn; [discriminate | exact IH].
Qed.

Lemma no_instance_no_callback k l :
  existsb (is_MLflowPLCallback k) l = false ->
  (forall k' o, In (MLflowPLCallback k' o) l -> k' = k) ->
  List.filter is_autolog_callback l = [].
Proof.
  intros Hno Hall. apply existsb_filter_nil.
  destruct (existsb is_autolog_callback l) eqn:E; [| reflexivity].
  apply existsb_exists in E. destruct E as ([k' o|es|name] & Hin & Hc);
    try discriminate.
  assert (Hk : existsb (is_MLflowPLCallback k) l = true).
  { apply existsb_exists. exists (MLflowPLCallback k' o). split; [exact Hin |].
    cbn. rewrite (Hall _ _ Hin). apply Nat.eqb_refl. }
  congruence.
Qed.

Lemma one_callback_registered k t w :
  one_callback k (callbacks t) -> one_callback k (registered_callbacks k t w).
Proof.
  intros [Hc Hall]. unfold registered_callbacks.
  destruct (existsb (is_MLflowPLCallback k) (callbacks t)) eqn:E; [now split |].
  split.
  - rewrite List.filter_app, (no_instance_no_callback k _ E Hall). cbn. lia.
  - intros k' o Hin. apply in_app_or in Hin. destruct Hin as [Hin|[[= <- _]|[]]].
    + exact (Hall _ _ Hin).
    + reflexivity.
Qed.

Lemma callbacks_of_ext self w w' :
  trainers w' !! self = trainers w !! self ->
  callbacks_of self w' = callbacks_of self w.
Proof. unfold callbacks_of. now intros ->. Qed.

(** One call of [_run_and_log_function] keeps the invariant, when the
    original adds no autologging callback. *)
Lemma run_and_log_function_one_callback env k self orig args kwargs w :
  adds_no_autolog_callback self orig ->
  one_callback k (callbacks_of self w) ->
  one_callback k
    (callbacks_of self (snd (_run_and_log_function env k self orig args kwargs w))).
Proof.
  intros Horig Hw.
  destruct (trainers w !! self) as [t|] eqn:Ht.
  - rewrite (run_and_log_function_eq _ _ _ _ _ _ _ _ Ht).
    assert (He : one_callback k (callbacks_of self (entry_store env k self w))).
    { destruct (entry_store_spec env k self w t Ht) as (_ & _ & Tr).
      unfold callbacks_of in *. rewrite Tr. rewrite Ht in Hw.
      now apply one_callback_registered. }
    destruct (Horig args kwargs (entry_store env k self w)) as [Hn Hin].
    assert (Ho : one_callback k
              (callbacks_of self (snd (orig self args kwargs (entry_store env k self w))))).
    { destruct He as [Hc Hall]. split.
      - unfold mlflow_callbacks in Hn. lia.
      - intros k' o H. apply (Hall k' o), Hin; [reflexivity | exact H]. }
    destruct (orig self args kwargs (entry_store env k self w)) as [[v|e] w2];
      cbn [snd] in *; [| exact Ho].
    destruct (active_run w); [exact Ho |].
    rewrite (callbacks_of_ext self w2); [exact Ho |].
    now rewrite logged_trainers.
  - rewrite (callbacks_of_ext self w); [exact Hw |].
    now rewrite (run_and_log_function_dead _ _ _ _ _ _ _ Ht).
Qed.

(** X15.  Under one call of [_autolog] registering the callback is
    idempotent.  Lines 220 and 221 leave the callback list as it is when it holds an
    instance of the callback class of that call, and append one new instance
    otherwise.  So, when the original [fit] adds no autologging callback
    itself, a trainer that holds none (or one, of that class) holds at most
    one after any sequence of calls of the patched [fit]. *)
Lemma registration_is_idempotent_per_class env depth cls k orig self :
  cls !! "fit" = Some (AutologFit k) ->
  cls !! original_name "fit" = Some (Builtin orig) ->
  adds_no_autolog_callback self orig ->
  (forall w t,
     trainers w !! self = Some t ->
     trainers (snd (register_callback k self w)) !! self =
       Some (with_callbacks t
               (if existsb (is_MLflowPLCallback k) (callbacks t)
                then callbacks t
                else callbacks t ++ [MLflowPLCallback k (next_obj w)]))) /\
  (forall invocations w,
     (mlflow_callbacks self w <= 1)%nat ->
     (forall k' o, In (MLflowPLCallback k' o) (callbacks_of self w) -> k' = k) ->
     (mlflow_callbacks self (fit_each env (S depth) cls self invocations w) <= 1)%nat).
Proof.
  intros Hp Ho Horig. split.
  - intros w t Ht.
    destruct (register_callback_live k self w t Ht) as (w1 & E & _ & _ & _ & _ & Tr & _).
    rewrite E. exact Tr.
  - intros invocations w Hc Hall.
    assert (Hinv : one_callback k (callbacks_of self w)) by now split.
    clear Hc Hall. revert w Hinv.
    induction invocations as [|[args kwargs] rest IH]; intros w Hinv; cbn [fit_each].
    + apply Hinv.
    + apply IH.
      rewrite (call_patched_fit _ _ _ _ _ _ _ _ Hp), (fit_eq _ _ _ _ _ _ _ _ _ Ho).
      now apply run_and_log_function_one_callback.
Qed.

Lemma plain_fit_adds_no_autolog_callback self :
  adds_no_autolog_callback self plain_fit.
Proof. intros args kwargs w. split; [apply le_n | auto]. Qed.

Example three_fits_register_once :
  (mlflow_callbacks 0
     (fit_each healthy 1 patched_class 0%nat [([], []); ([VObj 1], []); ([], [])]
        fresh_world) <= 1)%nat.
Proof.
  apply (proj2 (registration_is_idempotent_per_class healthy 0 patched_class 2 plain_fit 0%nat
                  eq_refl eq_refl (plain_fit_adds_no_autolog_callback 0%nat))).
  - vm_compute. lia.
  - vm_compute. intros k' o H. intuition discriminate.
Defined.

(** C9.  Registering the callback is not idempotent once [_autolog] has been
    called again.  The second call defines a new callback class; the test of
    line 220 is against that class, so the [fit] it patches in does not
    recognise the instance that the first [fit] registered and appends an
    instance of its own: after two calls of [fit] on the same trainer the
    callback list holds two autologging callbacks. *)
Theorem autolog_again_registers_again :
  let final :=
    snd (autolog_then_fit healthy 1 1 0%nat [] []
           (autolog_then_fit healthy 1 1 0%nat [] [] (trainer_class, fresh_world))) in
  callbacks_of 0 final =
    [OtherCallback "ProgressBar"; EarlyStoppingCallback stopper;
     MLflowPLCallback 2 3; MLflowPLCallback 4 5] /\
  mlflow_callbacks 0 final = 2%nat.
Proof. vm_compute. split; reflexivity. Qed.

(** ** Patching the trainer class *)

(** C3.  Whatever class [_autolog] returns, every attribute of the trainer
    class other than [fit] is as it was before, and the only new attribute is
    the reserved name under which the original [fit] is kept.  On the process
    of rank zero, [fit] is the patch and the original [fit] is kept; on
    another process nothing is patched.  In the store, [_autolog] leaves the
    trainers, the callbacks and the tracking client as they were. *)
Theorem autolog_patches_only_fit env n (cls : gmap string Attr) w :
  (forall cls',
     fst (_autolog env n cls w) = Returned cls' ->
     (forall name a, name <> "fit" -> cls !! name = Some a -> cls' !! name = Some a) /\
     (forall name, name <> "fit" -> name <> original_name "fit" ->
                   cls' !! name = cls !! name)) /\
  (rank env = 0%nat ->
   forall a, cls !! "fit" = Some a ->
   exists cls',
     fst (_autolog env n cls w) = Returned cls' /\
     cls' !! "fit" = Some (AutologFit (next_obj w)) /\
     cls' !! original_name "fit" = Some (default a (cls !! original_name "fit"))) /\
  (rank env <> 0%nat -> _autolog env n cls w = (Returned cls, w)) /\
  (trainers (snd (_autolog env n cls w)) = trainers w /\
   early_stopping (snd (_autolog env n cls w)) = early_stopping w /\
   events (snd (_autolog env n cls w)) = events w /\
   active_run (snd (_autolog env n cls w)) = active_run w).
Proof.
  split; [| split; [| split]].
  - intros cls'. unfold _autolog, wrap_patch.
    destruct (rank env =? 0)%nat; cbn [fst]; [| intros [= <-]; now split].
    destruct (cls !! "fit") as [target|]; [| discriminate].
    intros [= <-].
    destruct (cls !! original_name "fit") as [o|] eqn:Ho; split.
    + intros name a Hne Ha. now rewrite lookup_insert_ne by congruence.
    + intros name H1 H2. now rewrite lookup_insert_ne by congruence.
    + intros name a Hne Ha. rewrite lookup_insert_ne by congruence.
      rewrite lookup_insert_ne; [exact Ha |]. intros <-. congruence.
    + intros name H1 H2. now rewrite !lookup_insert_ne by congruence.
  - intros Hr a Ha.
    destruct (autolog_class env n cls w a Hr Ha) as (cls' & E & Hp & Ho & _).
    exists cls'. now repeat split.
  - intros Hr. unfold _autolog.
    destruct (Nat.eqb_spec (rank env) 0); [contradiction | reflexivity].
  - unfold _autolog. destruct (rank env =? 0)%nat; now repeat split.
Qed.

Lemma autolog_patches_only_fit_witness :
  exists cls',
    fst (_autolog healthy 2 trainer_class fresh_world) = Returned cls' /\
    cls' !! "fit" = Some (AutologFit (next_obj fresh_world)) /\
    cls' !! original_name "fit" =
      Some (default (Builtin plain_fit) (trainer_class !! original_name "fit")).
Proof.
  exact (proj1 (proj2 (autolog_patches_only_fit healthy 2 trainer_class fresh_world))
           eq_refl (Builtin plain_fit) eq_refl).
Defined.

(** * Further properties of the hooks and of the patched [fit] *)

Lemma bind_lift {A B} (r : Outcome A) (k : A -> M B) w :
  bind (lift r) k w =
  match r with
  | Returned a => k a w
  | Raised e => (Raised e, w)
  end.
Proof. now destruct r. Qed.

(** Closes [did w cs w'] when [w'] is [w] after some guarded calls and [cs]
    computes to the list of those calls. *)
Ltac did_chain :=
  match goal with
  | |- did ?w0 ?cs ?w1 =>
      let H := fresh "Hd" in
      eassert (H : did w0 _ w1)
        by (repeat eapply did_logged; apply did_refl);
      refine (eq_rect _ (fun l => did w0 l w1) H _ _); clear H;
      cbn; rewrite ?app_nil_r; reflexivity
  end.

(** ** [_early_stop_check], in full *)

Lemma wp_early_stop_check env es (Q : unit -> World -> Prop) w :
  early_stop_ok env es ->
  (forall w', did w (early_stop_metrics env es) w' -> Q tt w') ->
  wp (_early_stop_check env es) Q w.
Proof.
  intros (s & Hs & Hrest) HQ.
  unfold _early_stop_check, early_stop_metrics in *. rewrite Hs in *.
  cbn [getattr]. apply wp_bind, wp_ret.
  destruct (Z.eqb_spec s 0) as [Hz|Hnz]; cbn [negb when].
  - apply wp_ret, HQ. destruct (patience es); apply did_refl.
  - destruct (Hrest Hnz) as [(p & Hp) Hb]. rewrite Hp in *.
    cbn [if_hasattr getattr].
    apply wp_bind, wp_bind, wp_try_log, wp_bind, wp_ret, wp_try_log.
    unfold stopped_metrics, best_score_metric, wait_count_metric in HQ.
    destruct (best_score es) as [b|]; cbn [if_hasattr].
    + destruct (Hb b eq_refl) as (f & Hf). rewrite Hf in *.
      apply wp_bind, wp_bind, wp_lift, wp_try_log.
      destruct (wait_count es) as [c|]; cbn [if_hasattr].
      * apply wp_try_log, HQ. did_chain.
      * apply wp_ret, HQ. did_chain.
    + apply wp_bind, wp_ret.
      destruct (wait_count es) as [c|]; cbn [if_hasattr].
      * apply wp_try_log, HQ. did_chain.
      * apply wp_ret, HQ. did_chain.
Qed.

(** X1.  For an early-stopping callback that has stopped (at an epoch other
    than 0) and has [patience], [_early_stop_check] returns and makes, in
    this order, the calls for [stopped_epoch], for [restored_epoch], for
    [best_score] converted to float when the callback has one, and for
    [wait_count] when the callback has one; all of them metrics without a
    step. *)
Theorem early_stop_check_logs_stop env es s p w :
  stopped_epoch es = Some s -> s <> 0 ->
  patience es = Some p ->
  (forall b, best_score es = Some b -> exists f, py_float env b = Returned f) ->
  fst (_early_stop_check env es w) = Returned tt /\
  calls w (snd (_early_stop_check env es w)) =
    [log_metric "stopped_epoch" (VInt s) None;
     log_metric "restored_epoch" (VInt (s - Z.max 1 p)) None] ++
    match best_score es with
    | Some b =>
        match py_float env b with
        | Returned f => [log_metric "best_score" f None]
        | Raised _ => []
        end
    | None => []
    end ++
    match wait_count es with
    | Some c => [log_metric "wait_count" c None]
    | None => []
    end.
Proof.
  intros Hs Hnz Hp Hb.
  assert (Hok : early_stop_ok env es).
  { exists s. split; [exact Hs |]. intros _. split; [now exists p | exact Hb]. }
  pose proof (wp_early_stop_check env es
                (fun _ w' => did w (early_stop_metrics env es) w') w Hok
                (fun _ H => H)) as H.
  apply wp_run in H. destruct H as ([] & w' & -> & [T _]). cbn [fst snd].
  split; [reflexivity |]. rewrite (traced_calls _ _ _ T).
  unfold early_stop_metrics. rewrite Hs, Hp.
  destruct (Z.eqb_spec s 0); [contradiction | reflexivity].
Qed.

Lemma early_stop_check_logs_stop_witness :
  fst (_early_stop_check healthy stopper training_world) = Returned tt /\
  calls training_world (snd (_early_stop_check healthy stopper training_world)) =
    [log_metric "stopped_epoch" (VInt 7) None;
     log_metric "restored_epoch" (VInt 4) None;
     log_metric "best_score" (VFloat 4596373779694328218) None;
     log_metric "wait_count" (VInt 3) None].
Proof.
  apply (early_stop_check_logs_stop healthy stopper 7 3 training_world eq_refl
           ltac:(lia) eq_refl).
  intros b [= <-]. eexists. reflexivity.
Defined.

(** X2.  What [_early_stop_check] does with a callback it cannot read.
    Without [stopped_epoch] it raises [AttributeError] at line 190 and logs
    nothing: the [hasattr] test of line 192 comes after the attribute has been
    read.  Stopped, but without [patience], it raises [AttributeError] after
    the call for [stopped_epoch].  With a [best_score] that [float] refuses,
    it raises what [float] raises after the calls for [stopped_epoch] and
    [restored_epoch], and [wait_count] is not logged. *)
Theorem early_stop_check_unreadable_callback env es w :
  (stopped_epoch es = None ->
   _early_stop_check env es w = (Raised (AttributeError "stopped_epoch"), w)) /\
  (forall s,
     stopped_epoch es = Some s -> s <> 0 -> patience es = None ->
     fst (_early_stop_check env es w) = Raised (AttributeError "patience") /\
     calls w (snd (_early_stop_check env es w)) =
       [log_metric "stopped_epoch" (VInt s) None]) /\
  (forall s p b e,
     stopped_epoch es = Some s -> s <> 0 -> patience es = Some p ->
     best_score es = Some b -> py_float env b = Raised e ->
     fst (_early_stop_check env es w) = Raised e /\
     calls w (snd (_early_stop_check env es w)) =
       [log_metric "stopped_epoch" (VInt s) None;
        log_metric "restored_epoch" (VInt (s - Z.max 1 p)) None]).
Proof.
  split; [| split].
  - intros Hs. unfold _early_stop_check. now rewrite Hs.
  - intros s Hs Hnz Hp. unfold _early_stop_check. rewrite Hs, Hp.
    cbn [getattr]. rewrite bind_ret.
    destruct (Z.eqb_spec s 0); [contradiction |]. cbn [negb when if_hasattr].
    rewrite bind_bind, bind_try_log, bind_bind, bind_raise. cbn [fst snd].
    split; [reflexivity |]. calls_by_trace. reflexivity.
  - intros s p b e Hs Hnz Hp Hb Hf. unfold _early_stop_check. rewrite Hs, Hp, Hb.
    cbn [getattr]. rewrite bind_ret.
    destruct (Z.eqb_spec s 0); [contradiction |]. cbn [negb when if_hasattr].
    rewrite bind_bind, bind_try_log, bind_bind, bind_ret, bind_try_log.
    rewrite bind_bind, bind_lift, Hf. cbn [fst snd].
    split; [reflexivity |]. calls_by_trace. reflexivity.
Qed.

Lemma early_stop_check_unreadable_callback_witness :
  fst (_early_stop_check healthy no_patience training_world) =
    Raised (AttributeError "patience") /\
  calls training_world (snd (_early_stop_check healthy no_patience training_world)) =
    [log_metric "stopped_epoch" (VInt 3) None].
Proof.
  apply (proj1 (proj2 (early_stop_check_unreadable_callback healthy no_patience
                         training_world)) 3 eq_refl ltac:(lia) eq_refl).
Defined.

(** ** The loop over the metrics *)

Lemma metric_calls_each env step metrics :
  floats_ok env metrics ->
  Forall2 (metric_logged env step) metrics (metric_calls env step metrics).
Proof.
  induction 1 as [|kv metrics [f Hf] _ IH]; cbn [metric_calls flat_map].
  - constructor.
  - rewrite Hf. cbn [app]. constructor; [now exists f | exact IH].
Qed.

(** The loop stops at the first value that [float] refuses: the metrics
    before it are logged, the ones after it are not. *)
Lemma metrics_loop_fails env step pre kv post e :
  floats_ok env pre ->
  py_float env kv.2 = Raised e ->
  forall w0 cs w,
    traced w0 cs w ->
    exists w',
      log_metrics env step (pre ++ kv :: post) w = (Raised e, w') /\
      traced w0 (cs ++ metric_calls env step pre) w'.
Proof.
  intros Hpre Hf. unfold log_metrics.
  induction Hpre as [|kv' pre [f' Hf'] _ IH]; intros w0 cs w Htr;
    cbn [for_each app metric_calls flat_map].
  - rewrite bind_bind, bind_lift, Hf. exists w. split; [reflexivity |].
    now rewrite app_nil_r.
  - rewrite bind_bind, bind_lift, Hf', bind_try_log.
    destruct (IH w0 (cs ++ [log_metric kv'.1 f' step])
                 (logged env (log_metric kv'.1 f' step) w))
      as (w' & E & T); [now apply traced_logged |].
    exists w'. split; [exact E |]. cbn [app]. now rewrite <- app_assoc in T.
Qed.

(** ** [on_test_end] *)

(** X3.  When [float] accepts every value of [trainer.callback_metrics],
    [on_test_end] returns whatever the tracking backend does, and the calls it
    makes are the tag [Mode = testing] and then one metric per entry of the
    dictionary, in its order, with the value converted to float and without a
    step. *)
Theorem on_test_end_logs_metrics env self trainer pl_module w :
  floats_ok env (callback_metrics trainer) ->
  fst (on_test_end env self trainer pl_module w) = Returned tt /\
  exists logged_metrics,
    calls w (snd (on_test_end env self trainer pl_module w)) =
      set_tag "Mode" (VStr "testing") :: logged_metrics /\
    Forall2 (metric_logged env None) (callback_metrics trainer) logged_metrics.
Proof.
  intros Hok. unfold on_test_end. rewrite bind_try_log.
  pose proof (metrics_loop env None _ Hok w [set_tag "Mode" (VStr "testing")] _
                (traced_logged env w [] _ w (traced_refl w))) as H.
  apply wp_run in H. destruct H as ([] & w' & -> & T). cbn [fst snd].
  split; [reflexivity |].
  exists (metric_calls env None (callback_metrics trainer)). split.
  - apply (traced_calls _ _ _ T).
  - now apply metric_calls_each.
Qed.

Lemma on_test_end_logs_metrics_witness :
  fst (on_test_end unreachable 5 sample_trainer sample_module training_world) =
    Returned tt /\
  exists logged_metrics,
    calls training_world
      (snd (on_test_end unreachable 5 sample_trainer sample_module training_world)) =
      set_tag "Mode" (VStr "testing") :: logged_metrics /\
    Forall2 (metric_logged unreachable None) (callback_metrics sample_trainer)
            logged_metrics.
Proof.
  apply (on_test_end_logs_metrics unreachable 5 sample_trainer sample_module
           training_world).
  repeat constructor; eexists; reflexivity.
Defined.

(** X4.  The conversion to float is outside the wrapper: at the first value
    of [trainer.callback_metrics] that [float] refuses, [on_test_end] raises
    what [float] raises.  The tag and the metrics before that value have been
    logged; the metrics after it are not. *)
Theorem on_test_end_stops_at_bad_metric env self trainer pl_module w pre kv post e :
  callback_metrics trainer = pre ++ kv :: post ->
  floats_ok env pre ->
  py_float env kv.2 = Raised e ->
  fst (on_test_end env self trainer pl_module w) = Raised e /\
  exists logged_metrics,
    calls w (snd (on_test_end env self trainer pl_module w)) =
      set_tag "Mode" (VStr "testing") :: logged_metrics /\
    Forall2 (metric_logged env None) pre logged_metrics.
Proof.
  intros Hm Hpre Hf. unfold on_test_end. rewrite bind_try_log, Hm.
  destruct (metrics_loop_fails env None pre kv post e Hpre Hf w
              [set_tag "Mode" (VStr "testing")] _
              (traced_logged env w [] _ w (traced_refl w)))
    as (w' & -> & T).
  cbn [fst snd]. split; [reflexivity |].
  exists (metric_calls env None pre). split.
  - apply (traced_calls _ _ _ T).
  - now apply metric_calls_each.
Qed.

Lemma on_test_end_stops_at_bad_metric_witness :
  fst (on_test_end healthy 5 odd_trainer sample_module training_world) =
    Raised TypeError /\
  exists logged_metrics,
    calls training_world
      (snd (on_test_end healthy 5 odd_trainer sample_module training_world)) =
      set_tag "Mode" (VStr "testing") :: logged_metrics /\
    Forall2 (metric_logged healthy None) [("loss", VFloat 4602678819172646912)]
            logged_metrics.
Proof.
  apply (on_test_end_stops_at_bad_metric healthy 5 odd_trainer sample_module
           training_world [("loss", VFloat 4602678819172646912)]
           ("note", VStr "n/a") [("val_loss", VFloat 4603579539098121011)]
           TypeError eq_refl).
  - repeat constructor. eexists. reflexivity.
  - reflexivity.
Defined.

(** ** [on_epoch_end], in full *)

Lemma wp_check_early_stopping env cbs (Q : unit -> World -> Prop) :
  Forall (early_stop_ok env) (early_stoppers cbs) ->
  forall w0 cs w,
    traced w0 cs w ->
    (forall w',
        traced w0 (cs ++ flat_map (early_stop_metrics env) (early_stoppers cbs)) w' ->
        Q tt w') ->
    wp (check_early_stopping env cbs) Q w.
Proof.
  unfold check_early_stopping.
  induction cbs as [|c cbs IH]; intros Hok w0 cs w Htr HQ; cbn [for_each].
  - apply wp_ret, HQ. cbn. now rewrite app_nil_r.
  - destruct c as [k o|es|name]; cbn [early_stoppers flat_map app] in Hok, HQ.
    + apply wp_bind, wp_ret. now apply (IH Hok w0 cs).
    + apply Forall_cons_1 in Hok. destruct Hok as [Hes Hok].
      apply wp_bind, wp_early_stop_check; [exact Hes |].
      intros w1 [T1 _].
      apply (IH Hok w0 (cs ++ early_stop_metrics env es)).
      * eapply traced_app; eassumption.
      * intros w' T'. apply HQ. now rewrite <- app_assoc in T'.
    + apply wp_bind, wp_ret. now apply (IH Hok w0 cs).
Qed.

(** X5.  With a non-zero interval, values that [float] accepts and
    early-stopping callbacks that can be read, [on_epoch_end] returns whatever
    the tracking backend does.  Its calls are first, when the interval divides
    [current_epoch + 1], one metric per entry of [trainer.callback_metrics] at
    the step [current_epoch], and then, for each early-stopping callback of
    the trainer in the order of the callback list, the metrics of
    [_early_stop_check] (none for a callback whose [stopped_epoch] is 0). *)
Theorem on_epoch_end_logs_in_order env self trainer pl_module w :
  every_n_epoch w <> 0 ->
  floats_ok env (callback_metrics trainer) ->
  Forall (early_stop_ok env) (early_stoppers (callbacks trainer)) ->
  fst (on_epoch_end env self trainer pl_module w) = Returned tt /\
  exists logged_metrics,
    calls w (snd (on_epoch_end env self trainer pl_module w)) =
      (if (current_epoch pl_module + 1) mod every_n_epoch w =? 0
       then logged_metrics
       else []) ++
      flat_map (early_stop_metrics env) (early_stoppers (callbacks trainer)) /\
    Forall2 (metric_logged env (Some (current_epoch pl_module)))
            (callback_metrics trainer) logged_metrics.
Proof.
  intros Hnz Hok Hes.
  set (step := Some (current_epoch pl_module)).
  assert (H : wp (on_epoch_end env self trainer pl_module)
                (fun _ w' =>
                   traced w
                     ((if (current_epoch pl_module + 1) mod every_n_epoch w =? 0
                       then metric_calls env step (callback_metrics trainer)
                       else []) ++
                      flat_map (early_stop_metrics env)
                               (early_stoppers (callbacks trainer))) w') w).
  { unfold on_epoch_end. apply wp_bind, wp_get, wp_bind. unfold py_mod.
    destruct (Z.eqb_spec (every_n_epoch w) 0); [contradiction |].
    apply wp_lift, wp_bind.
    destruct ((current_epoch pl_module + 1) mod every_n_epoch w =? 0); cbn [when].
    - eapply wp_mono; [| apply (metrics_loop env step _ Hok w [] w (traced_refl w))].
      intros [] w1 T1. cbn [app] in T1.
      now apply (wp_check_early_stopping env _ _ Hes w _ w1 T1).
    - apply wp_ret.
      now apply (wp_check_early_stopping env _ _ Hes w [] w (traced_refl w)). }
  apply wp_run in H. destruct H as ([] & w' & -> & T). cbn [fst snd].
  split; [reflexivity |].
  exists (metric_calls env step (callback_metrics trainer)). split.
  - apply (traced_calls _ _ _ T).
  - now apply metric_calls_each.
Qed.

Lemma on_epoch_end_logs_in_order_witness :
  calls training_world
    (snd (on_epoch_end healthy 5 sample_trainer sample_module training_world)) =
  [log_metric "loss" (VFloat 4602678819172646912) (Some 4);
   log_metric "val_loss" (VFloat 4603579539098121011) (Some 4);
   log_metric "stopped_epoch" (VInt 7) None;
   log_metric "restored_epoch" (VInt 4) None;
   log_metric "best_score" (VFloat 4596373779694328218) None;
   log_metric "wait_count" (VInt 3) None].
Proof.
  destruct (on_epoch_end_logs_in_order healthy 5 sample_trainer sample_module
              training_world)
    as (_ & logged_metrics & E & F).
  - discriminate.
  - repeat constructor; eexists; reflexivity.
  - repeat constructor. exists 7. split; [reflexivity |]. intros _. split.
    + now exists 3.
    + intros b [= <-]. eexists. reflexivity.
  - rewrite E. clear E.
    inversion F as [|? c1 ? l1 (f1 & E1 & ->) F1]; subst.
    inversion F1 as [|? c2 ? l2 (f2 & E2 & ->) F2]; subst.
    inversion F2; subst.
    injection E1 as <-. injection E2 as <-. reflexivity.
Defined.

(** X6.  At an epoch where the metrics are logged, the first value that
    [float] refuses makes [on_epoch_end] raise what [float] raises: the
    metrics before it have been logged, and neither the metrics after it nor
    any early-stopping metric are. *)
Theorem on_epoch_end_stops_at_bad_metric
    env self trainer pl_module w pre kv post e :
  every_n_epoch w <> 0 ->
  (current_epoch pl_module + 1) mod every_n_epoch w = 0 ->
  callback_metrics trainer = pre ++ kv :: post ->
  floats_ok env pre ->
  py_float env kv.2 = Raised e ->
  fst (on_epoch_end env self trainer pl_module w) = Raised e /\
  exists logged_metrics,
    calls w (snd (on_epoch_end env self trainer pl_module w)) = logged_metrics /\
    Forall2 (metric_logged env (Some (current_epoch pl_module))) pre logged_metrics.
Proof.
  intros Hnz Hdiv Hm Hpre Hf. rewrite on_epoch_end_eq. unfold py_mod.
  destruct (Z.eqb_spec (every_n_epoch w) 0); [contradiction |].
  rewrite Hdiv. cbn [Z.eqb when]. unfold bind. rewrite Hm.
  destruct (metrics_loop_fails env (Some (current_epoch pl_module)) pre kv post e
              Hpre Hf w [] w (traced_refl w)) as (w' & -> & T).
  cbn [fst snd]. split; [reflexivity |].
  exists (metric_calls env (Some (current_epoch pl_module)) pre). split.
  - apply (traced_calls _ _ _ T).
  - now apply metric_calls_each.
Qed.

Lemma on_epoch_end_stops_at_bad_metric_witness :
  fst (on_epoch_end healthy 5 odd_trainer sample_module training_world) =
    Raised TypeError.
Proof.
  apply (on_epoch_end_stops_at_bad_metric healthy 5 odd_trainer sample_module
           training_world [("loss", VFloat 4602678819172646912)]
           ("note", VStr "n/a") [("val_loss", VFloat 4603579539098121011)]
           TypeError ltac:(discriminate) eq_refl eq_refl).
  - repeat constructor. eexists. reflexivity.
  - reflexivity.
Defined.

Lemma check_early_stopping_quiet env cbs w :
  Forall (fun es => stopped_epoch es = Some 0) (early_stoppers cbs) ->
  check_early_stopping env cbs w = (Returned tt, w).
Proof.
  unfold check_early_stopping.
  induction cbs as [|c cbs IH]; intros Hq; cbn [for_each]; [reflexivity |].
  destruct c as [k o|es|name]; cbn [early_stoppers flat_map app] in Hq.
  - rewrite bind_ret. now apply IH.
  - apply Forall_cons_1 in Hq. destruct Hq as [Hs Hq].
    unfold bind. unfold _early_stop_check at 1. rewrite Hs. cbn.
    now apply IH.
  - rewrite bind_ret. now apply IH.
Qed.

(** X7.  An epoch at which nothing is due makes no client call: when the
    interval is not zero and does not divide [current_epoch + 1], and no
    early-stopping callback of the trainer has stopped, [on_epoch_end] returns
    and leaves the store exactly as it was. *)
Theorem on_epoch_end_quiet env self trainer pl_module w :
  every_n_epoch w <> 0 ->
  (current_epoch pl_module + 1) mod every_n_epoch w <> 0 ->
  Forall (fun es => stopped_epoch es = Some 0) (early_stoppers (callbacks trainer)) ->
  on_epoch_end env self trainer pl_module w = (Returned tt, w).
Proof.
  intros Hnz Hmod Hq. rewrite on_epoch_end_eq. unfold py_mod.
  destruct (Z.eqb_spec (every_n_epoch w) 0); [contradiction |].
  destruct (Z.eqb_spec ((current_epoch pl_module + 1) mod every_n_epoch w) 0);
    [contradiction |].
  cbn [when]. rewrite bind_ret. now apply check_early_stopping_quiet.
Qed.

Lemma on_epoch_end_quiet_witness :
  on_epoch_end healthy 5 calm_trainer sample_module every_other_world =
    (Returned tt, every_other_world).
Proof.
  apply (on_epoch_end_quiet healthy 5 calm_trainer sample_module every_other_world).
  - discriminate.
  - discriminate.
  - repeat constructor.
Defined.

(** ** What the hooks leave alone *)

Section Keeps.

Variable R : World -> World -> Prop.
Hypothesis R_refl : forall w, R w w.
Hypothesis R_trans : forall w1 w2 w3, R w1 w2 -> R w2 w3 -> R w1 w3.

Lemma keeps_ret {A} (a : A) : keeps R (ret a).
Proof. intros w. apply R_refl. Qed.

Lemma keeps_raise {A} e : keeps R (@raise A e).
Proof. intros w. apply R_refl. Qed.

Lemma keeps_lift {A} (r : Outcome A) : keeps R (lift r).
Proof. intros w. apply R_refl. Qed.

Lemma keeps_get {A} (f : World -> A) : keeps R (get f).
Proof. intros w. apply R_refl. Qed.

Lemma keeps_getattr {A} name (field : option A) : keeps R (getattr name field).
Proof. destruct field; [apply keeps_ret | apply keeps_raise]. Qed.

Lemma keeps_modify (f : World -> World) :
  (forall w, R w (f w)) -> keeps R (modify f).
Proof. intros H w. apply H. Qed.

Lemma keeps_bind {A B} (m : M A) (k : A -> M B) :
  keeps R m -> (forall a, keeps R (k a)) -> keeps R (bind m k).
Proof.
  intros Hm Hk w. unfold bind. specialize (Hm w).
  destruct (m w) as [[a|e] w1]; cbn [snd] in *; [| exact Hm].
  eapply R_trans; [exact Hm | apply Hk].
Qed.

Lemma keeps_when c body : keeps R body -> keeps R (when c body).
Proof. destruct c; intros H; [exact H | apply keeps_ret]. Qed.

Lemma keeps_if_hasattr {A} (field : option A) body :
  (forall a, keeps R (body a)) -> keeps R (if_hasattr field body).
Proof. destruct field; intros H; [apply H | apply keeps_ret]. Qed.

Lemma keeps_if_in d key body :
  (forall v, keeps R (body v)) -> keeps R (if_in d key body).
Proof. unfold if_in. destruct (d !! key); intros H; [apply H | apply keeps_ret]. Qed.

Lemma keeps_for_each {A} (l : list A) body :
  (forall x, keeps R (body x)) -> keeps R (for_each l body).
Proof.
  intros Hb. induction l as [|x l IH]; cbn [for_each].
  - apply keeps_ret.
  - apply keeps_bind; auto.
Qed.

Lemma keeps_try_finally {A} (body : M A) cleanup :
  keeps R body -> keeps R cleanup -> keeps R (try_finally body cleanup).
Proof.
  intros Hb Hc w. unfold try_finally. specialize (Hb w).
  destruct (body w) as [r w1]. cbn [snd] in Hb. specialize (Hc w1).
  destruct (cleanup w1) as [[u|e] w2]; cbn [snd] in *;
    eapply R_trans; eassumption.
Qed.

Lemma keeps_try_mlflow_log (fn : M unit) :
  keeps R fn -> (forall e w, R w (add_warning e w)) -> keeps R (try_mlflow_log fn).
Proof.
  intros Hf Hw w. unfold try_mlflow_log. specialize (Hf w).
  destruct (fn w) as [[u|e] w1]; cbn [snd] in *; [exact Hf |].
  eapply R_trans; [exact Hf | apply Hw].
Qed.

End Keeps.

Lemma hook_frame_refl self w : hook_frame self w w.
Proof.
  repeat split; auto. exists []. split; [now rewrite app_nil_r | constructor].
Qed.

Lemma hook_frame_trans self w1 w2 w3 :
  hook_frame self w1 w2 -> hook_frame self w2 w3 -> hook_frame self w1 w3.
Proof.
  intros (A3 & A4 & A5 & A6 & A7 & l1 & A8 & A9)
         (B3 & B4 & B5 & B6 & B7 & l2 & B8 & B9).
  repeat split; try congruence.
  - intros o Ho. now rewrite B6, A6.
  - destruct B7 as [B7|B7]; [| now right].
    destruct A7 as [A7|A7]; [left | right]; congruence.
  - exists (l1 ++ l2). split; [now rewrite B8, A8, app_assoc |].
    apply List.Forall_app. now split.
Qed.

(** A store that differs in what no hook reads or writes back. *)
Lemma hook_frame_quiet self w w' :
  trainers w' = trainers w -> every_n_epoch w' = every_n_epoch w ->
  next_obj w' = next_obj w -> early_stopping w' = early_stopping w ->
  events w' = events w ->
  hook_frame self w w'.
Proof.
  intros Ht Hn Ho He Hev. repeat split; auto.
  - intros o _. now rewrite He.
  - left. now rewrite He.
  - exists []. split; [now rewrite app_nil_r | constructor].
Qed.

(** A call of a logging function. *)
Lemma hook_frame_mlflow env self c :
  is_logging_call c = true -> keeps (hook_frame self) (mlflow env c).
Proof.
  intros Hc w. pose proof (events_mlflow env c w) as Hev. revert Hev.
  unfold mlflow. destruct (client_raises env c (events w)); set_runs;
    cbn [snd]; intros Hev; repeat split; auto;
    eexists; (split; [exact Hev | now repeat constructor]).
Qed.

Lemma hook_frame_warning self e w : hook_frame self w (add_warning e w).
Proof. now apply hook_frame_quiet. Qed.

Lemma hook_frame_try_log env self c :
  is_logging_call c = true ->
  keeps (hook_frame self) (try_mlflow_log (mlflow env c)).
Proof.
  intros Hc. apply keeps_try_mlflow_log.
  - apply hook_frame_trans.
  - now apply hook_frame_mlflow.
  - intros e w. apply hook_frame_warning.
Qed.

Lemma hook_frame_fs self made dirs fs w : hook_frame self w (set_fs made dirs fs w).
Proof. now apply hook_frame_quiet. Qed.

Lemma hook_frame_set_flag self w :
  hook_frame self w
    (set_early_stopping (<[self := true]> (early_stopping w)) (next_obj w) w).
Proof.
  repeat split; auto.
  - intros o Ho. cbn. now rewrite lookup_insert_ne.
  - right. cbn. apply lookup_insert_eq.
  - exists []. cbn. split; [now rewrite app_nil_r | constructor].
Qed.

(** Applies the rules of [keeps] for [hook_frame] along a hook. *)
Ltac frame_steps self :=
  repeat first
    [ apply hook_frame_try_log; reflexivity
    | apply hook_frame_mlflow; reflexivity
    | apply (keeps_ret _ (hook_frame_refl self))
    | apply (keeps_raise _ (hook_frame_refl self))
    | apply (keeps_lift _ (hook_frame_refl self))
    | apply (keeps_get _ (hook_frame_refl self))
    | apply (keeps_getattr _ (hook_frame_refl self))
    | apply (keeps_bind _ (hook_frame_trans self)); [| intros ?]
    | apply (keeps_when _ (hook_frame_refl self))
    | apply (keeps_if_hasattr _ (hook_frame_refl self)); intros ?
    | apply (keeps_if_in _ (hook_frame_refl self)); intros ?
    | apply (keeps_for_each _ (hook_frame_refl self) (hook_frame_trans self)); intros ?
    | apply (keeps_try_finally _ (hook_frame_trans self))
    | apply keeps_modify; intros ?; apply hook_frame_fs
    | apply keeps_modify; intros ?; apply hook_frame_set_flag ].

Lemma hook_frame_fire env h self trainer pl_module :
  keeps (hook_frame self) (fire env h self trainer pl_module).
Proof.
  destruct h; cbn [fire].
  - unfold on_epoch_end, log_metrics, check_early_stopping, _early_stop_check.
    frame_steps self.
    match goal with |- context [match ?c with MLflowPLCallback _ _ => _ | _ => _ end] =>
      destruct c
    end; frame_steps self.
  - unfold on_train_start, _log_early_stop_params, log_optimizer, log_model_summary.
    frame_steps self;
      try match goal with
          | |- context [match ?c with MLflowPLCallback _ _ => _ | _ => _ end] =>
              destruct c
          end;
      frame_steps self; try (intros w; apply hook_frame_fs).
  - unfold on_train_end. frame_steps self.
    match goal with |- context [if ?b then _ else _] => destruct b end;
      frame_steps self.
  - unfold on_test_end, log_metrics. frame_steps self.
  - frame_steps self.
Qed.

(** X8.  What no hook of the callback does.  Whatever hook fires, with
    whatever trainer, and whether it returns or raises: the hook calls
    neither [start_run] nor [end_run] (the calls it adds to the trace are
    calls of logging functions, and the trace only grows), the trainers and
    the module global [every_n_epoch] are as before, no other callback's
    [early_stopping] changes, and the callback's own [early_stopping] is as
    before or has become true. *)
Theorem hooks_only_log_and_leave_trainers_alone env h self trainer pl_module w :
  trainers (snd (fire env h self trainer pl_module w)) = trainers w /\
  every_n_epoch (snd (fire env h self trainer pl_module w)) = every_n_epoch w /\
  (forall o, o <> self ->
     early_stopping (snd (fire env h self trainer pl_module w)) !! o =
       early_stopping w !! o) /\
  (early_stopping (snd (fire env h self trainer pl_module w)) !! self =
     early_stopping w !! self \/
   early_stopping (snd (fire env h self trainer pl_module w)) !! self = Some true) /\
  (exists l,
     events (snd (fire env h self trainer pl_module w)) = events w ++ l /\
     Forall (fun ev => ev_call ev <> start_run /\ ev_call ev <> end_run) l).
Proof.
  destruct (hook_frame_fire env h self trainer pl_module w)
    as (H3 & H4 & _ & H6 & H7 & l & H8 & H9).
  repeat split; auto.
  exists l. split; [exact H8 |].
  eapply List.Forall_impl; [| exact H9].
  intros ev Hev. cbn beta in Hev. destruct (ev_call ev); split; discriminate.
Qed.

Lemma same_flags_refl w : same_flags w w.
Proof. reflexivity. Qed.

Lemma same_flags_trans w1 w2 w3 :
  same_flags w1 w2 -> same_flags w2 w3 -> same_flags w1 w3.
Proof. unfold same_flags. congruence. Qed.

Lemma same_flags_mlflow env c : keeps same_flags (mlflow env c).
Proof.
  intros w. unfold mlflow, same_flags.
  destruct (client_raises env c (events w)); set_runs; reflexivity.
Qed.

Lemma same_flags_try_log env c : keeps same_flags (try_mlflow_log (mlflow env c)).
Proof.
  apply keeps_try_mlflow_log;
    [apply same_flags_trans | apply same_flags_mlflow | reflexivity].
Qed.

Ltac flags_steps :=
  repeat first
    [ apply same_flags_try_log
    | apply same_flags_mlflow
    | apply (keeps_ret _ same_flags_refl)
    | apply (keeps_raise _ same_flags_refl)
    | apply (keeps_lift _ same_flags_refl)
    | apply (keeps_get _ same_flags_refl)
    | apply (keeps_getattr _ same_flags_refl)
    | apply (keeps_bind _ same_flags_trans); [| intros ?]
    | apply (keeps_when _ same_flags_refl)
    | apply (keeps_if_hasattr _ same_flags_refl); intros ?
    | apply (keeps_for_each _ same_flags_refl same_flags_trans); intros ? ].

(** Only [on_train_start] writes [early_stopping]. *)
Lemma same_flags_fire env h self trainer pl_module :
  is_train_start h = false ->
  keeps same_flags (fire env h self trainer pl_module).
Proof.
  destruct h; cbn [is_train_start fire]; intros Hh; try discriminate.
  - unfold on_epoch_end, log_metrics, check_early_stopping, _early_stop_check.
    flags_steps.
    match goal with |- context [match ?c with MLflowPLCallback _ _ => _ | _ => _ end] =>
      destruct c
    end; flags_steps.
  - unfold on_train_end. flags_steps.
    match goal with |- context [if ?b then _ else _] => destruct b end;
      flags_steps.
  - unfold on_test_end, log_metrics. flags_steps.
  - flags_steps.
Qed.

Lemma same_flags_run_hooks env self hooks :
  forallb (fun h => negb (is_train_start h.1.1)) hooks = true ->
  forall w, early_stopping (run_hooks env self hooks w) = early_stopping w.
Proof.
  induction hooks as [|[[h trainer] pl_module] hooks IH]; intros Hh w;
    cbn [run_hooks]; [reflexivity |].
  cbn [forallb fst] in Hh. apply andb_prop in Hh. destruct Hh as [H1 H2].
  rewrite (IH H2). apply same_flags_fire.
  now destruct (is_train_start h).
Qed.

(** The calls of [on_train_end], when the call that stores the model
    returns. *)
Lemma on_train_end_calls env self trainer pl_module w observed :
  client_raises env (log_model (model trainer) "model") (events w) = None ->
  early_stopping w !! self = Some observed ->
  calls w (snd (on_train_end env self trainer pl_module w)) =
    log_model (model trainer) "model" :: checkpoint_calls observed trainer.
Proof.
  intros Hok Hflag. rewrite on_train_end_eq. cbn zeta. rewrite Hok, Hflag.
  pose proof (traced_mlflow env w [] (log_model (model trainer) "model") w
                (traced_refl w)) as T1.
  unfold checkpoint_calls.
  destruct observed; cbn [andb snd].
  - destruct (checkpoint_callback trainer) as [cc|]; cbn [snd];
      [| apply (traced_calls _ _ _ T1)].
    destruct (str_truth (best_model_path cc)); cbn [snd];
      [| apply (traced_calls _ _ _ T1)].
    apply traced_calls. apply (traced_logged env _ _ _ _ T1).
  - destruct (checkpoint_callback trainer); apply (traced_calls _ _ _ T1).
Qed.

(** X9.  Over a whole training.  Take a callback whose [early_stopping] is
    false, as [__init__] leaves it; fire [on_train_start] with the trainer,
    then any hooks other than [on_train_start] (epoch ends, test ends, earlier
    train ends, with whatever trainers), then [on_train_end].  If the call
    that stores the model returns, [on_train_end] logs the best checkpoint
    exactly when the trainer had an early-stopping callback at train start and
    [best_model_path] is not empty at train end. *)
Theorem checkpoint_follows_early_stopping
    env self trainer pl_module hooks trainer' pl_module' w :
  early_stopping w !! self = Some false ->
  forallb (fun h => negb (is_train_start h.1.1)) hooks = true ->
  let w1 := snd (on_train_start env self trainer pl_module w) in
  let w2 := run_hooks env self hooks w1 in
  client_raises env (log_model (model trainer') "model") (events w2) = None ->
  calls w2 (snd (on_train_end env self trainer' pl_module' w2)) =
    log_model (model trainer') "model"
      :: checkpoint_calls (existsb is_EarlyStopping (callbacks trainer)) trainer'.
Proof.
  intros Hfresh Hhooks w1 w2 Hok.
  apply on_train_end_calls; [exact Hok |].
  subst w2. rewrite (same_flags_run_hooks env self hooks Hhooks). subst w1.
  pose proof (wp_on_train_start env self trainer pl_module
                (fun _ w' => early_stopping w' = flag_after self (callbacks trainer) w)
                w (fun _ _ F => F)) as H.
  apply wp_run in H. destruct H as ([] & w' & -> & F). cbn [snd].
  rewrite F. unfold flag_after.
  destruct (existsb is_EarlyStopping (callbacks trainer));
    [apply lookup_insert_eq | exact Hfresh].
Qed.

Lemma checkpoint_follows_early_stopping_witness :
  let w2 :=
    run_hooks healthy 5
      [(EpochEnd, sample_trainer, sample_module);
       (TestEnd, sample_trainer, sample_module)]
      (snd (on_train_start healthy 5 sample_trainer sample_module registered_world)) in
  calls w2 (snd (on_train_end healthy 5 sample_trainer sample_module w2)) =
    [log_model (VObj 1) "model";
     log_artifact "ckpt/epoch=4.ckpt" (Some "restored_model_checkpoint")].
Proof.
  exact (checkpoint_follows_early_stopping healthy 5 sample_trainer sample_module
           [(EpochEnd, sample_trainer, sample_module);
            (TestEnd, sample_trainer, sample_module)]
           sample_trainer sample_module registered_world eq_refl eq_refl eq_refl).
Defined.

(** ** [on_train_end] without early stopping, and without a checkpoint *)

(** X10.  The test of line 143 reads the checkpoint callback only when
    [self.early_stopping] is set.  With the flag unset, [on_train_end] is the
    one call that stores the model and nothing else: same outcome, same store,
    whatever the checkpoint callback is, also when the trainer has none.  With
    the flag set and a trainer without checkpoint callback, it raises
    [AttributeError] once the model has been stored. *)
Theorem on_train_end_reads_checkpoint_lazily env self trainer pl_module w :
  (early_stopping w !! self = Some false ->
   on_train_end env self trainer pl_module w =
     mlflow env (log_model (model trainer) "model") w) /\
  (early_stopping w !! self = Some true ->
   checkpoint_callback trainer = None ->
   client_raises env (log_model (model trainer) "model") (events w) = None ->
   fst (on_train_end env self trainer pl_module w) =
     Raised (AttributeError "best_model_path") /\
   calls w (snd (on_train_end env self trainer pl_module w)) =
     [log_model (model trainer) "model"]).
Proof.
  split.
  - intros Hflag. rewrite on_train_end_eq. cbn zeta. rewrite Hflag.
    unfold mlflow.
    now destruct (client_raises env (log_model (model trainer) "model") (events w)).
  - intros Hflag Hcc Hok. rewrite on_train_end_eq. cbn zeta.
    rewrite Hok, Hflag, Hcc. cbn [fst snd]. split; [reflexivity |].
    apply traced_calls, (traced_mlflow env w []), traced_refl.
Qed.

Lemma on_train_end_reads_checkpoint_lazily_witness :
  on_train_end healthy 5 bare_trainer sample_module registered_world =
    mlflow healthy (log_model (model bare_trainer) "model") registered_world.
Proof.
  exact (proj1 (on_train_end_reads_checkpoint_lazily healthy 5 bare_trainer
                  sample_module registered_world) eq_refl).
Defined.

(** ** The temporary directory of [on_train_start] *)

Lemma prefix_path_join d name :
  String.prefix (d +:+ "/") (path_join d name) = true.
Proof.
  unfold path_join. induction d as [|a d IH]; simpl.
  - now destruct name.
  - destruct (ascii_dec a a); [exact IH | congruence].
Qed.

Lemma same_files_refl w : same_files w w.
Proof. now repeat split. Qed.

Lemma same_files_objects w w1 w2 :
  same_files w w1 -> same_objects w1 w2 -> same_files w w2.
Proof.
  intros (A1 & A2 & A3) (_ & _ & _ & _ & B5 & B6 & B7).
  repeat split; congruence.
Qed.

Lemma same_files_logged env c w w1 : same_files w w1 -> same_files w (logged env c w1).
Proof. intros H. eapply same_files_objects; [exact H | apply same_objects_logged]. Qed.

Lemma logged_tmp_made env c w : tmp_made (logged env c w) = tmp_made w.
Proof. apply logged_frame. Qed.

Lemma logged_files env c w : files (logged env c w) = files w.
Proof. apply logged_frame. Qed.

(** Lines 122 to 131: the directory is made, the summary written and logged,
    and the directory removed with what is in it. *)
Lemma wp_log_model_summary_files env pl_module (Q : unit -> World -> Prop) w :
  (forall w',
      tmp_made w' = S (tmp_made w) ->
      tempdirs w' =
        List.filter (fun d => negb (String.eqb (mkdtemp_name env (tmp_made w)) d))
                    (mkdtemp_name env (tmp_made w) :: tempdirs w) ->
      files w' =
        filter (fun kv => String.prefix (mkdtemp_name env (tmp_made w) +:+ "/") kv.1
                          = false)
               (<[path_join (mkdtemp_name env (tmp_made w)) "model_summary.txt" :=
                    model_summary env pl_module]> (files w)) ->
      Q tt w') ->
  wp (log_model_summary env pl_module) Q w.
Proof.
  intros HQ.
  unfold wp, log_model_summary, bind, mkdtemp, try_finally, write_file, rmtree, modify.
  rewrite try_log_eq. apply HQ.
  - cbn [tmp_made set_fs]. now rewrite logged_tmp_made.
  - cbn [tempdirs set_fs]. now rewrite logged_tempdirs.
  - cbn [files set_fs]. now rewrite logged_files.
Qed.

(** The statements of [on_train_start] before the model summary do not touch
    the file system. *)
Lemma wp_train_start_files env self trainer pl_module (Q : unit -> World -> Prop) w :
  (forall w',
      tmp_made w' = S (tmp_made w) ->
      tempdirs w' =
        List.filter (fun d => negb (String.eqb (mkdtemp_name env (tmp_made w)) d))
                    (mkdtemp_name env (tmp_made w) :: tempdirs w) ->
      files w' =
        filter (fun kv => String.prefix (mkdtemp_name env (tmp_made w) +:+ "/") kv.1
                          = false)
               (<[path_join (mkdtemp_name env (tmp_made w)) "model_summary.txt" :=
                    model_summary env pl_module]> (files w)) ->
      Q tt w') ->
  wp (on_train_start env self trainer pl_module) Q w.
Proof.
  intros HQ. unfold on_train_start.
  apply wp_bind, wp_try_log, wp_bind, wp_try_log, wp_bind.
  set (w0 := logged env _ (logged env _ w)).
  assert (S0 : same_files w w0)
    by (apply same_files_logged, same_files_logged, same_files_refl).
  eapply wp_mono;
    [| apply (wp_for_each _ (fun _ w1 => same_files w w1) (callbacks trainer) [] w0) ].
  - intros [] w1 S1. cbn beta in S1. apply wp_bind.
    assert (Hopt : wp (if_hasattr (optimizers trainer)
                         (fun opts => for_each opts (log_optimizer env)))
                      (fun _ w2 => same_files w w2) w1).
    { destruct (optimizers trainer) as [opts|]; cbn [if_hasattr].
      - eapply wp_mono;
          [| apply (wp_for_each _ (fun _ w2 => same_files w w2) opts [] w1) ].
        + intros [] w2 S2. exact S2.
        + intros pre o post w2 _ S2. apply wp_log_optimizer.
          intros w3 [_ S3]. eapply same_files_objects; eassumption.
        + exact S1.
      - apply wp_ret. exact S1. }
    eapply wp_mono; [| exact Hopt].
    intros [] w2 (M2 & D2 & F2). cbn beta.
    apply wp_log_model_summary_files. rewrite M2, D2, F2. exact (HQ).
  - intros pre x post w1 _ S1. destruct x as [k o|es|name].
    + apply wp_ret. exact S1.
    + apply wp_bind, wp_modify, wp_log_early_stop_params.
      intros w2 [_ S2]. eapply same_files_objects; [| exact S2]. exact S1.
    + apply wp_ret. exact S1.
  - exact S0.
Qed.

(** X11.  [on_train_start] cleans up after itself.  The temporary directory
    it makes for the model summary is not among the temporary directories when
    it is done, nor is the summary file among the files; every file outside
    that directory is as it was, and so are the other temporary
    directories. *)
Theorem on_train_start_removes_its_directory env self trainer pl_module w :
  let d := mkdtemp_name env (tmp_made w) in
  let w' := snd (on_train_start env self trainer pl_module w) in
  ~ In d (tempdirs w') /\
  files w' !! path_join d "model_summary.txt" = None /\
  (forall p, String.prefix (d +:+ "/") p = false -> files w' !! p = files w !! p) /\
  (forall d', d' <> d -> (In d' (tempdirs w') <-> In d' (tempdirs w))) /\
  tmp_made w' = S (tmp_made w).
Proof.
  intros d w'. subst w'.
  pose proof (wp_train_start_files env self trainer pl_module
                (fun _ w' =>
                   tmp_made w' = S (tmp_made w) /\
                   tempdirs w' =
                     List.filter (fun d' => negb (String.eqb d d')) (d :: tempdirs w) /\
                   files w' =
                     filter (fun kv => String.prefix (d +:+ "/") kv.1 = false)
                            (<[path_join d "model_summary.txt" :=
                                 model_summary env pl_module]> (files w)))
                w (fun _ A B C => conj A (conj B C))) as H.
  apply wp_run in H. destruct H as ([] & w' & -> & M & D & F). cbn [snd].
  pose proof (prefix_path_join d "model_summary.txt") as Hsf.
  split; [| split; [| split; [| split]]].
  - rewrite D. intros Hin. apply filter_In in Hin. destruct Hin as [_ Hin].
    now rewrite String.eqb_refl in Hin.
  - rewrite F. apply map_lookup_filter_None. right. intros x _. cbn. congruence.
  - intros p Hp. rewrite F. apply option_eq. intros c.
    rewrite map_lookup_filter_Some. cbn.
    rewrite lookup_insert_ne by (intros <-; congruence). tauto.
  - intros d' Hne. rewrite D, filter_In. cbn [In]. split.
    + intros [[Heq|Hin] _]; [congruence | exact Hin].
    + intros Hin. split; [now right |].
      destruct (String.eqb_spec d d'); [congruence | reflexivity].
  - exact M.
Qed.

(** ** The patched [fit] when something fails *)

Lemma entry_store_started env k self w t :
  trainers w !! self = Some t ->
  active_run w = None ->
  events (entry_store env k self w) =
    events w ++ [mkEvent start_run (client_raises env start_run (events w))] /\
  active_run (entry_store env k self w) =
    match client_raises env start_run (events w) with
    | None => Some (runs_started w)
    | Some _ => None
    end.
Proof.
  intros Ht Hnone.
  destruct (entry_store_spec env k self w t Ht) as (Ev & Ar & _).
  rewrite begin_run_eq, Hnone in Ev, Ar. cbn [snd] in Ev, Ar.
  rewrite Ev, Ar, events_logged. split; [reflexivity |].
  unfold logged. destruct (client_raises env start_run (events w)); [| reflexivity].
  cbn. exact Hnone.
Qed.

(** X12.  There is no [finally] around the call of the original [fit]: when
    it raises, the patched [fit] raises the same exception and leaves the
    store as the original left it, without a call of [end_run].  So a run
    that the patched [fit] started, and that the original left active, is
    still active after the failure. *)
Theorem fit_leaves_run_open_when_original_raises
    env k self original args kwargs w t e w2 :
  trainers w !! self = Some t ->
  original self args kwargs (entry_store env k self w) = (Raised e, w2) ->
  _run_and_log_function env k self original args kwargs w = (Raised e, w2) /\
  (active_run w = None ->
   client_raises env start_run (events w) = None ->
   active_run w2 = active_run (entry_store env k self w) ->
   active_run w2 = Some (runs_started w)).
Proof.
  intros Ht Ho. split.
  - now rewrite (run_and_log_function_eq _ _ _ _ _ _ _ _ Ht), Ho.
  - intros Hnone Hok ->.
    destruct (entry_store_started env k self w t Ht Hnone) as [_ ->].
    now rewrite Hok.
Qed.

(** X13.  A failure of [start_run] does not stop the training.  When no run
    is active and [start_run] raises, the exception is swallowed: the
    original [fit] is still called (with no run active), and when it returns
    the patched [fit] returns its value after a call of [end_run], although
    it has started no run. *)
Theorem fit_goes_on_when_start_run_fails env k self original args kwargs w t e :
  trainers w !! self = Some t ->
  active_run w = None ->
  client_raises env start_run (events w) = Some e ->
  let w1 := entry_store env k self w in
  let patched := _run_and_log_function env k self original args kwargs w in
  events w1 = events w ++ [mkEvent start_run (Some e)] /\
  active_run w1 = None /\
  (forall v w2,
     original self args kwargs w1 = (Returned v, w2) ->
     fst patched = Returned v /\
     events (snd patched) =
       events w2 ++ [mkEvent end_run (client_raises env end_run (events w2))]).
Proof.
  intros Ht Hnone Hfail w1 patched. subst w1 patched.
  destruct (entry_store_started env k self w t Ht Hnone) as [Ev Ar].
  rewrite Hfail in Ev, Ar. split; [exact Ev |]. split; [exact Ar |].
  intros v w2 Ho.
  rewrite (run_and_log_function_eq _ _ _ _ _ _ _ _ Ht), Ho, Hnone. cbn [fst snd].
  split; [reflexivity | apply events_logged].
Qed.

Lemma fit_leaves_run_open_when_original_raises_witness :
  _run_and_log_function healthy 2 0%nat failing_fit [] [] fresh_world =
    (Raised ValueError, entry_store healthy 2 0%nat fresh_world) /\
  (active_run fresh_world = None ->
   client_raises healthy start_run (events fresh_world) = None ->
   active_run (entry_store healthy 2 0%nat fresh_world) =
     active_run (entry_store healthy 2 0%nat fresh_world) ->
   active_run (entry_store healthy 2 0%nat fresh_world) =
     Some (runs_started fresh_world)).
Proof.
  exact (fit_leaves_run_open_when_original_raises healthy 2 0%nat failing_fit [] []
           fresh_world sample_trainer ValueError
           (entry_store healthy 2 0%nat fresh_world) eq_refl eq_refl).
Defined.

Lemma fit_goes_on_when_start_run_fails_witness :
  events (entry_store unreachable 2 0%nat fresh_world) =
    events fresh_world ++
    [mkEvent start_run (Some (MlflowException "connection refused"))] /\
  active_run (entry_store unreachable 2 0%nat fresh_world) = None /\
  (forall v w2,
     plain_fit 0%nat [] [] (entry_store unreachable 2 0%nat fresh_world) =
       (Returned v, w2) ->
     fst (_run_and_log_function unreachable 2 0%nat plain_fit [] [] fresh_world) =
       Returned v /\
     events (snd (_run_and_log_function unreachable 2 0%nat plain_fit [] []
                    fresh_world)) =
       events w2 ++ [mkEvent end_run (client_raises unreachable end_run (events w2))]).
Proof.
  exact (fit_goes_on_when_start_run_fails unreachable 2 0%nat plain_fit [] []
           fresh_world sample_trainer (MlflowException "connection refused")
           eq_refl eq_refl eq_refl).
Defined.

(** ** What registering the callback changes *)

(** X14.  Lines 220 and 221, on a trainer.  They return, and afterwards the
    trainer's callback list holds an instance of the callback class, so the
    original [fit] always runs with one.  The callbacks that were in the list
    are still there, in their order and before the new one; the trainer's
    other attributes, the other trainers, the flags of the callbacks that
    existed and the trace of client calls are as before.  An instance that is
    added is a new object whose [early_stopping] is false. *)
Theorem register_callback_adds_at_the_end k self w t :
  trainers w !! self = Some t ->
  let w1 := snd (register_callback k self w) in
  fst (register_callback k self w) = Returned tt /\
  (exists added,
     trainers w1 !! self = Some (with_callbacks t (callbacks t ++ added)) /\
     existsb (is_MLflowPLCallback k) (callbacks t ++ added) = true /\
     (added = [] /\ w1 = w \/
      added = [MLflowPLCallback k (next_obj w)] /\
      early_stopping w1 !! next_obj w = Some false /\
      next_obj w1 = S (next_obj w))) /\
  (forall other, other <> self -> trainers w1 !! other = trainers w !! other) /\
  (forall o, o <> next_obj w -> early_stopping w1 !! o = early_stopping w !! o) /\
  events w1 = events w.
Proof.
  intros Ht w1. subst w1.
  unfold register_callback, get_callbacks.
  rewrite bind_bind, bind_get, Ht. cbn [getattr]. rewrite bind_bind, !bind_ret.
  destruct (existsb (is_MLflowPLCallback k) (callbacks t)) eqn:E; cbn [negb when].
  - cbn [ret fst snd]. split; [reflexivity |]. split; [| now repeat split].
    exists []. rewrite app_nil_r, with_callbacks_id. now repeat split; auto.
  - split; [reflexivity |]. cbn. split; [| repeat split].
    + exists [MLflowPLCallback k (next_obj w)]. split; [| split].
      * now rewrite lookup_alter_eq, Ht.
      * rewrite existsb_app. cbn. now rewrite Nat.eqb_refl, orb_true_r.
      * right. split; [reflexivity |]. split; [apply lookup_insert_eq | reflexivity].
    + intros other Hne. now rewrite lookup_alter_ne.
    + intros o Hne. now rewrite lookup_insert_ne.
Qed.

Lemma register_callback_adds_at_the_end_witness :
  exists added,
    trainers (snd (register_callback 2 0%nat fresh_world)) !! 0%nat =
      Some (with_callbacks sample_trainer (callbacks sample_trainer ++ added)) /\
    existsb (is_MLflowPLCallback 2) (callbacks sample_trainer ++ added) = true /\
    (added = [] /\ snd (register_callback 2 0%nat fresh_world) = fresh_world \/
     added = [MLflowPLCallback 2 (next_obj fresh_world)] /\
     early_stopping (snd (register_callback 2 0%nat fresh_world))
       !! next_obj fresh_world = Some false /\
     next_obj (snd (register_callback 2 0%nat fresh_world)) =
       S (next_obj fresh_world)).
Proof.
  exact (proj1 (proj2 (register_callback_adds_at_the_end 2 0%nat fresh_world
                         sample_trainer eq_refl))).
Defined.

(** ** The interval that [_autolog] sets *)

Lemma run_hooks_every_n_epoch env self hooks w :
  every_n_epoch (run_hooks env self hooks w) = every_n_epoch w.
Proof.
  revert w. induction hooks as [|[[h trainer] pl_module] hooks IH]; intros w;
    cbn [run_hooks]; [reflexivity |].
  rewrite IH. apply (hook_frame_fire env h self trainer pl_module w).
Qed.

Lemma autolog_every_n_epoch env n cls w :
  rank env = 0%nat -> every_n_epoch (snd (_autolog env n cls w)) = n.
Proof. intros Hr. unfold _autolog. now rewrite Hr. Qed.

(** The calls of [on_epoch_end]: the metrics when they are due, then calls
    without a step. *)
Lemma on_epoch_end_shape env self trainer pl_module w :
  every_n_epoch w <> 0 ->
  floats_ok env (callback_metrics trainer) ->
  exists rest,
    calls w (snd (on_epoch_end env self trainer pl_module w)) =
      (if (current_epoch pl_module + 1) mod every_n_epoch w =? 0
       then metric_calls env (Some (current_epoch pl_module)) (callback_metrics trainer)
       else []) ++ rest /\
    Forall (fun c => exists k v, c = log_metric k v None) rest.
Proof.
  intros Hnz Hok. rewrite on_epoch_end_eq. unfold py_mod.
  destruct (Z.eqb_spec (every_n_epoch w) 0); [contradiction |].
  destruct ((current_epoch pl_module + 1) mod every_n_epoch w =? 0); cbn [when].
  - pose proof (metrics_loop env (Some (current_epoch pl_module)) _ Hok w [] w
                  (traced_refl w)) as Hloop.
    apply wp_run in Hloop. destruct Hloop as ([] & w1 & Hrun & Htr).
    unfold bind. rewrite Hrun.
    destruct (early_stop_loop_emits env (callbacks trainer) w1) as (l & El & Fl).
    exists (map ev_call l). split.
    + apply traced_calls. eapply traced_app; [exact Htr |]. now exists l.
    + now apply Forall_map.
  - rewrite bind_ret.
    destruct (early_stop_loop_emits env (callbacks trainer) w) as (l & El & Fl).
    exists (map ev_call l). split.
    + apply traced_calls. now exists l.
    + now apply Forall_map.
Qed.

(** X16.  The interval given to [_autolog] is the one in force afterwards.
    On the process of rank zero, after [_autolog n] with [n] other than 0 and
    after any hooks, an epoch-end hook (of any callback) logs a metric of
    [trainer.callback_metrics] at the step [current_epoch] exactly when [n]
    divides [current_epoch + 1], provided [float] accepts the values. *)
Theorem autolog_interval_in_force
    env n cls w self hooks self' trainer pl_module key value f :
  rank env = 0%nat ->
  n <> 0 ->
  floats_ok env (callback_metrics trainer) ->
  In (key, value) (callback_metrics trainer) ->
  py_float env value = Returned f ->
  let w1 := run_hooks env self hooks (snd (_autolog env n cls w)) in
  In (log_metric key f (Some (current_epoch pl_module)))
     (calls w1 (snd (on_epoch_end env self' trainer pl_module w1)))
  <-> (n | current_epoch pl_module + 1).
Proof.
  intros Hr Hn Hok Hin Hf w1.
  assert (En : every_n_epoch w1 = n).
  { subst w1. rewrite run_hooks_every_n_epoch. now apply autolog_every_n_epoch. }
  destruct (on_epoch_end_shape env self' trainer pl_module w1) as (rest & -> & Frest);
    [congruence | exact Hok |].
  rewrite En, <- (Z.mod_divide _ _ Hn).
  destruct (Z.eqb_spec ((current_epoch pl_module + 1) mod n) 0) as [Hz|Hz].
  - split; [intros _; exact Hz | intros _].
    apply in_or_app. left. now apply (in_metric_calls _ _ _ _ value).
  - split; [| intros E; contradiction]. cbn [app]. intros Hc. exfalso.
    rewrite List.Forall_forall in Frest. destruct (Frest _ Hc) as (k' & v' & E).
    discriminate E.
Qed.

Lemma autolog_interval_in_force_witness :
  let w1 :=
    run_hooks healthy 5 [(TrainStart, sample_trainer, sample_module)]
      (snd (_autolog healthy 5 trainer_class registered_world)) in
  In (log_metric "loss" (VFloat 4602678819172646912) (Some 4))
     (calls w1 (snd (on_epoch_end healthy 5 sample_trainer sample_module w1)))
  <-> (5 | 4 + 1).
Proof.
  apply (autolog_interval_in_force healthy 5 trainer_class registered_world 5
           [(TrainStart, sample_trainer, sample_module)] 5 sample_trainer
           sample_module "loss" (VFloat 4602678819172646912)
           (VFloat 4602678819172646912) eq_refl ltac:(discriminate)).
  - repeat constructor; eexists; reflexivity.
  - cbn. auto.
  - reflexivity.
Defined.

(** X17.  An interval of zero aborts the training at the first epoch end.
    On the process of rank zero, after [_autolog 0] and after any hooks, every
    epoch-end hook raises [ZeroDivisionError] at line 65 and leaves the store
    as it was: no metric is logged, and the early-stopping callbacks are not
    looked at. *)
Theorem autolog_zero_interval_aborts_epoch_end
    env cls w self hooks self' trainer pl_module :
  rank env = 0%nat ->
  let w1 := run_hooks env self hooks (snd (_autolog env 0 cls w)) in
  on_epoch_end env self' trainer pl_module w1 = (Raised ZeroDivisionError, w1).
Proof.
  intros Hr w1.
  assert (En : every_n_epoch w1 = 0).
  { subst w1. rewrite run_hooks_every_n_epoch. now apply autolog_every_n_epoch. }
  rewrite on_epoch_end_eq, En. reflexivity.
Qed.

Lemma autolog_zero_interval_aborts_epoch_end_witness :
  let w1 :=
    run_hooks healthy 5 [(TrainStart, sample_trainer, sample_module)]
      (snd (_autolog healthy 0 trainer_class registered_world)) in
  on_epoch_end healthy 5 sample_trainer sample_module w1 =
    (Raised ZeroDivisionError, w1).
Proof.
  exact (autolog_zero_interval_aborts_epoch_end healthy trainer_class registered_world
           5 [(TrainStart, sample_trainer, sample_module)] 5 sample_trainer
           sample_module eq_refl).
Defined.

Lemma guarded_hooks_ignore_client_failures_witness :
  fst (on_epoch_end healthy 5 sample_trainer sample_module training_world) =
    fst (on_epoch_end unreachable 5 sample_trainer sample_module training_world) /\
  fst (on_test_end healthy 5 sample_trainer sample_module training_world) =
    fst (on_test_end unreachable 5 sample_trainer sample_module training_world) /\
  fst (on_train_start healthy 5 sample_trainer sample_module training_world) =
    fst (on_train_start unreachable 5 sample_trainer sample_module training_world).
Proof.
  exact (guarded_hooks_ignore_client_failures healthy unreachable 5 sample_trainer
           sample_module training_world eq_refl).
Defined.
